(** * Course recommendation service: the resolver, the fallback and the endpoint

    A shallow embedding of [app.py]: the credential check
    ([initialize_gemini]), the resolver ([get_course_recommendations]) with
    its prompt, its extraction of a JSON payload from the model's reply and
    its two exception handlers, the canned payload ([get_fallback_data]) and
    the request handler ([recommendations]).

    Conventions of the embedding.
    - A Python [str] is a [string] holding the UTF-8 bytes of the text; a
      lone surrogate, which a JSON escape can put into a text, is held in
      the three bytes its code point would take.  Substring tests, [split],
      concatenation and dictionary keys work on the bytes as they do on the
      code points.  [strip] removes every character Python counts as white
      space, multi-byte ones included.
    - A Python value that came out of a JSON document is a [json]; a
      dictionary is an association list in insertion order with distinct
      keys.  A float is kept as the text of its literal.  The body of a
      request is such a value, as the framework decoded it.
    - Code runs in the monad [M]: it returns a value or raises an exception,
      and it records the calls that cross a component boundary.
    - [print] writes to a standard output that encodes UTF-8 strictly: it
      raises [UnicodeEncodeError] on a text with a lone surrogate and
      nothing else is observed of it.  [traceback.print_exc] writes to the
      standard error stream, which escapes what it cannot encode.
    - What depends on the interpreter is a parameter, [PyRuntime]: the
      Unicode tables behind [str.lower], the rendering of floats and
      containers, and the resource limits (recursion depth, the digit limit
      of [int]) that can interrupt the decoder. *)

From Stdlib Require Import String Ascii List ZArith NArith Bool Arith Lia.
From Stdlib Require Import DecimalString.
Import ListNotations.
Local Open Scope list_scope.
Local Open Scope string_scope.

(** ** Python's string operations *)

Module PyStr.

Definition quote : ascii := "034"%char.
Definition dq : string := String quote "".
Definition nl : string := String "010"%char "".

(** The text [s] between double quotes. *)
Definition quoted (s : string) : string := dq ++ s ++ dq.

(** [sub in s]. *)
Fixpoint str_in (sub s : string) : bool :=
  prefix sub s ||
  match s with
  | "" => false
  | String _ t => str_in sub t
  end.

(** [s.split(sep)] for a separator that is not empty: the pieces between
    the occurrences of [sep], found from left to right without overlap.
    [skip] counts the bytes of an occurrence still to pass over and [cur]
    is the piece being read. *)
Fixpoint split_from (sep : string) (skip : nat) (cur s : string) : list string :=
  match s with
  | "" => [cur]
  | String c t =>
      match skip with
      | S k => split_from sep k cur t
      | O =>
          if prefix sep s
          then cur :: split_from sep (String.length sep - 1) "" t
          else split_from sep 0 (cur ++ String c "") t
      end
  end.

Definition split (sep s : string) : list string := split_from sep 0 "" s.

(** UTF-8 bytes of a code point (surrogates are encoded like any other
    code point of their range). *)
Definition utf8_encode (cp : N) : string :=
  let byte (n : N) := ascii_of_N n in
  let cont (n : N) := byte (128 + n mod 64)%N in
  if (cp <? 128)%N then String (byte cp) ""
  else if (cp <? 2048)%N then
    String (byte (192 + cp / 64)%N) (String (cont cp) "")
  else if (cp <? 65536)%N then
    String (byte (224 + cp / 4096)%N)
      (String (cont (cp / 64)%N) (String (cont cp) ""))
  else
    String (byte (240 + cp / 262144)%N)
      (String (cont (cp / 4096)%N)
         (String (cont (cp / 64)%N) (String (cont cp) ""))).

(** The code points for which [str.isspace] holds. *)
Definition space_code_points : list N :=
  [9; 10; 11; 12; 13; 28; 29; 30; 31; 32; 133; 160; 5760;
   8192; 8193; 8194; 8195; 8196; 8197; 8198; 8199; 8200; 8201; 8202;
   8232; 8233; 8239; 8287; 12288]%N.

Definition spaces : list string := map utf8_encode space_code_points.

Fixpoint rev_string (s : string) : string :=
  match s with
  | "" => ""
  | String c t => rev_string t ++ String c ""
  end.

(** Number of bytes of the sequence of [seqs] that [s] starts with, 0 when
    it starts with none. *)
Definition width_of (seqs : list string) (s : string) : nat :=
  match find (fun w => prefix w s) seqs with
  | Some w => String.length w
  | None => 0
  end.

(** Drop the leading sequences of [seqs]. *)
Fixpoint drop_leading (seqs : list string) (skip : nat) (s : string) : string :=
  match s with
  | "" => ""
  | String _ t =>
      match skip with
      | S k => drop_leading seqs k t
      | O =>
          match width_of seqs s with
          | O => s
          | S k => drop_leading seqs k t
          end
      end
  end.

Definition lstrip (s : string) : string := drop_leading spaces 0 s.

Definition rstrip (s : string) : string :=
  rev_string (drop_leading (map rev_string spaces) 0 (rev_string s)).

(** [s.strip()]. *)
Definition strip (s : string) : string := rstrip (lstrip s).

Definition lower_char (c : ascii) : ascii :=
  let n := nat_of_ascii c in
  if ((65 <=? n)%nat && (n <=? 90)%nat)%bool then ascii_of_nat (n + 32) else c.

(** [s.lower()] for a text of ASCII characters: A-Z go to a-z. *)
Fixpoint lower_ascii (s : string) : string :=
  match s with
  | "" => ""
  | String c t => String (lower_char c) (lower_ascii t)
  end.

(** [s.isascii()]. *)
Fixpoint is_ascii (s : string) : bool :=
  match s with
  | "" => true
  | String c t => (nat_of_ascii c <? 128)%nat && is_ascii t
  end.

(** A continuation byte of a multi-byte character. *)
Definition is_continuation (c : ascii) : bool :=
  let n := nat_of_ascii c in ((128 <=? n)%nat && (n <=? 191)%nat)%bool.

(** The first two bytes of a surrogate (U+D800 to U+DFFF). *)
Definition surrogate_bytes (a b : ascii) : bool :=
  let n := nat_of_ascii b in
  ((nat_of_ascii a =? 237)%nat && (160 <=? n)%nat && (n <=? 191)%nat)%bool.

(** The text holds a surrogate. *)
Fixpoint has_surrogate (s : string) : bool :=
  match s with
  | String a (String b _ as t) => surrogate_bytes a b || has_surrogate t
  | _ => false
  end.

(** [s[:n]]: the first [n] characters. *)
Fixpoint first_chars (n : nat) (s : string) : string :=
  match s with
  | "" => ""
  | String a t =>
      if is_continuation a then String a (first_chars n t)
      else match n with
           | O => ""
           | S k => String a (first_chars k t)
           end
  end.

(** [c in s] for a character. *)
Fixpoint has_char (c : ascii) (s : string) : bool :=
  match s with
  | "" => false
  | String d t => (d =? c)%char || has_char c t
  end.

Definition str_of_nat (n : nat) : string := NilZero.string_of_uint (Nat.to_uint n).

(** [str(z)] for an [int]. *)
Definition str_of_Z (z : Z) : string := NilZero.string_of_int (Z.to_int z).

End PyStr.

Import PyStr.

(** ** Python values and exceptions *)

(** The values a JSON document denotes.  [JFloat] holds the text of the
    literal ([1.5], [2e3], [NaN], [-Infinity]). *)
#[warnings="-register-all"]
Inductive json : Type :=
| JNull
| JBool (b : bool)
| JInt (z : Z)
| JFloat (literal : string)
| JStr (s : string)
| JList (items : list json)
| JDict (pairs : list (string * json)).

Inductive exn_class : Type :=
| ValueError
| JSONDecodeError
| UnicodeEncodeError
| AttributeError
| IndexError
| RecursionError
| OtherException.

(** A raised exception: its class and the text [str(e)] gives. *)
Record exn : Type := Exn { exn_cls : exn_class; exn_msg : string }.

(** [isinstance(e, ValueError)]: [JSONDecodeError] and [UnicodeEncodeError]
    derive from [ValueError]. *)
Definition is_ValueError (e : exn) : bool :=
  match exn_cls e with
  | ValueError | JSONDecodeError | UnicodeEncodeError => true
  | _ => false
  end.

(** ** Writing to the standard output *)

Module Codec.

(** The first surrogate of a text: its index, counted in characters from
    [idx], and the text from there on. *)
Fixpoint first_surrogate (idx : nat) (s : string) : option (nat * string) :=
  match s with
  | String a (String b _ as t) =>
      if surrogate_bytes a b then Some (idx, s)
      else if is_continuation a then first_surrogate idx t
      else first_surrogate (S idx) t
  | _ => None
  end.

(** The number of surrogates in a row that [s] starts with. *)
Fixpoint surrogate_run (s : string) : nat :=
  match s with
  | String a (String b (String _ rest)) =>
      if surrogate_bytes a b then S (surrogate_run rest) else 0
  | _ => 0
  end.

(** The code point of the surrogate [s] starts with. *)
Definition code_point (s : string) : N :=
  match s with
  | String _ (String b (String c _)) =>
      (53248 + (N_of_ascii b - 128) * 64 + (N_of_ascii c - 128))%N
  | String _ (String b _) => (53248 + (N_of_ascii b - 128) * 64)%N
  | _ => 0%N
  end.

Definition hex_digit (n : N) : ascii :=
  if (n <? 10)%N then ascii_of_N (48 + n) else ascii_of_N (87 + n).

(** Four hexadecimal digits, as in ['\ud800']. *)
Definition hex4 (n : N) : string :=
  String (hex_digit (n / 4096 mod 16)%N)
    (String (hex_digit (n / 256 mod 16)%N)
       (String (hex_digit (n / 16 mod 16)%N)
          (String (hex_digit (n mod 16)%N) ""))).

(** [str(e)] of the error for [run] surrogates from index [idx] on. *)
Definition describe (idx run : nat) (cp : N) : string :=
  match run with
  | O | S O =>
      "'utf-8' codec can't encode character '\u" ++ hex4 cp ++ "' in position "
        ++ str_of_nat idx ++ ": surrogates not allowed"
  | S (S k) =>
      "'utf-8' codec can't encode characters in position " ++ str_of_nat idx ++ "-"
        ++ str_of_nat (idx + S k) ++ ": surrogates not allowed"
  end.

(** The exception that writing [text] raises, if any. *)
Definition encode_fault (text : string) : option exn :=
  match first_surrogate 0 text with
  | None => None
  | Some (idx, from) =>
      Some (Exn UnicodeEncodeError (describe idx (surrogate_run from) (code_point from)))
  end.

End Codec.

(** ** The interpreter

    What the model leaves to the interpreter: the truth value of a float;
    the text [str] gives for a float, a list or a dictionary, which escapes
    every surrogate; [str.lower], which maps A-Z to a-z on ASCII text and
    follows the Unicode tables elsewhere; and the exception, if any, with
    which a resource limit (recursion depth, digit limit of [int], memory)
    interrupts [json.loads] on a document, whose text is ASCII and does not
    mention an API key. *)
Class PyRuntime : Type := {
  float_bool : string -> bool;
  repr_value : json -> string;
  unicode_lower : string -> string;
  interrupts : string -> option exn;
  repr_value_encodable : forall v, has_surrogate (repr_value v) = false;
  unicode_lower_ascii : forall s, is_ascii s = true -> unicode_lower s = lower_ascii s;
  interrupts_text :
    forall doc e, interrupts doc = Some e ->
      is_ascii (exn_msg e) = true /\ str_in "API key" (exn_msg e) = false
}.

Module Py.

(** [d.get(key)] on the pairs of a dictionary. *)
Fixpoint lookup (key : string) (pairs : list (string * json)) : option json :=
  match pairs with
  | [] => None
  | (k, v) :: rest => if String.eqb k key then Some v else lookup key rest
  end.

(** [d[key] = v]: a key already present keeps its place. *)
Fixpoint dict_set (key : string) (v : json) (pairs : list (string * json))
  : list (string * json) :=
  match pairs with
  | [] => [(key, v)]
  | (k, w) :: rest =>
      if String.eqb k key then (k, v) :: rest
      else (k, w) :: dict_set key v rest
  end.

(** [d.get(key, default)] on the pairs of a dictionary. *)
Definition get (key : string) (default : json) (pairs : list (string * json)) : json :=
  match lookup key pairs with
  | Some v => v
  | None => default
  end.

(** [key in v] for a value returned to the caller: only a dictionary has
    keys. *)
Definition has_key (key : string) (v : json) : bool :=
  match v with
  | JDict pairs => match lookup key pairs with Some _ => true | None => false end
  | _ => false
  end.

(** The value bound to [key] in a dictionary [v]. *)
Definition field (key : string) (v : json) : option json :=
  match v with
  | JDict pairs => lookup key pairs
  | _ => None
  end.

(** [isinstance(v, dict)]. *)
Definition is_dict (v : json) : bool :=
  match v with
  | JDict _ => true
  | _ => false
  end.

(** [type(v).__name__]. *)
Definition type_name (v : json) : string :=
  match v with
  | JNull => "NoneType"
  | JBool _ => "bool"
  | JInt _ => "int"
  | JFloat _ => "float"
  | JStr _ => "str"
  | JList _ => "list"
  | JDict _ => "dict"
  end.

Section Runtime.
Context {rt : PyRuntime}.

(** [bool(v)]. *)
Definition truthy (v : json) : bool :=
  match v with
  | JNull => false
  | JBool b => b
  | JInt z => negb (z =? 0)%Z
  | JFloat lit => float_bool lit
  | JStr s => negb (String.eqb s "")
  | JList items => match items with [] => false | _ => true end
  | JDict pairs => match pairs with [] => false | _ => true end
  end.

(** [str(v)], which is what an f-string puts in place of [{v}]. *)
Definition str (v : json) : string :=
  match v with
  | JStr s => s
  | JNull => "None"
  | JBool true => "True"
  | JBool false => "False"
  | JInt z => str_of_Z z
  | JFloat _ | JList _ | JDict _ => repr_value v
  end.
End Runtime.

End Py.

(** ** The decoder: [json.loads]

    A model of the interpreter's decoder, which is not part of the
    repository: the grammar and the faults of the accelerated scanner of
    CPython 3.11, with the text and the position each fault reports. *)

Module Json.

Inductive fault : Type :=
| Expecting_value
| Expecting_property_name
| Expecting_colon
| Expecting_comma
| Extra_data
| Unterminated_string
| Invalid_control_character
| Invalid_escape
| Invalid_unicode_escape
| Unexpected_BOM.

Definition fault_text (f : fault) : string :=
  match f with
  | Expecting_value => "Expecting value"
  | Expecting_property_name => "Expecting property name enclosed in double quotes"
  | Expecting_colon => "Expecting ':' delimiter"
  | Expecting_comma => "Expecting ',' delimiter"
  | Extra_data => "Extra data"
  | Unterminated_string => "Unterminated string starting at"
  | Invalid_control_character => "Invalid control character at"
  | Invalid_escape => "Invalid \escape"
  | Invalid_unicode_escape => "Invalid \uXXXX escape"
  | Unexpected_BOM => "Unexpected UTF-8 BOM (decode using utf-8-sig)"
  end.

Definition between (lo hi : N) (c : ascii) : bool :=
  ((lo <=? N_of_ascii c) && (N_of_ascii c <=? hi))%N.

Definition is_digit (c : ascii) : bool := between 48 57 c.

Definition is_whitespace (c : ascii) : bool :=
  ((c =? " ") || (c =? "009") || (c =? "010") || (c =? "013"))%char.

Definition hex_value (c : ascii) : option N :=
  if between 48 57 c then Some (N_of_ascii c - 48)%N
  else if between 97 102 c then Some (N_of_ascii c - 87)%N
  else if between 65 70 c then Some (N_of_ascii c - 55)%N
  else None.

Definition hex4 (a b c d : ascii) : option N :=
  match hex_value a, hex_value b, hex_value c, hex_value d with
  | Some x, Some y, Some z, Some w => Some (((x * 16 + y) * 16 + z) * 16 + w)%N
  | _, _, _, _ => None
  end.

Definition is_high_surrogate (c : N) : bool := ((55296 <=? c) && (c <=? 56319))%N.
Definition is_low_surrogate (c : N) : bool := ((56320 <=? c) && (c <=? 57343))%N.
Definition join_surrogates (hi lo : N) : N :=
  (65536 + ((hi - 55296) * 1024 + (lo - 56320)))%N.

(** The character a one-letter escape stands for. *)
Definition unescape (c : ascii) : option ascii :=
  if (c =? quote)%char then Some quote
  else if (c =? "\")%char then Some "\"%char
  else if (c =? "/")%char then Some "/"%char
  else if (c =? "b")%char then Some "008"%char
  else if (c =? "f")%char then Some "012"%char
  else if (c =? "n")%char then Some "010"%char
  else if (c =? "r")%char then Some "013"%char
  else if (c =? "t")%char then Some "009"%char
  else None.

(** A fault is reported at a position of the document, kept as the number
    of bytes [away] from that position to the end of the document. *)
Inductive scanned : Type :=
| Str (value rest : string)
| Bad (f : fault) (away : nat).

(** The string literal whose opening quote is [start] bytes from the end
    and whose text after that quote is [s]; [acc] is the value read so
    far. *)
Fixpoint scanstring (start : nat) (acc s : string) : scanned :=
  match s with
  | "" => Bad Unterminated_string start
  | String c t =>
      if (c =? quote)%char then Str acc t
      else if (c =? "\")%char then
        match t with
        | "" => Bad Unterminated_string start
        | String e u =>
            if (e =? "u")%char then
              match u with
              | String h1 (String h2 (String h3 (String h4 (String _ _ as after)))) =>
                  match hex4 h1 h2 h3 h4 with
                  | None => Bad Invalid_unicode_escape (String.length t)
                  | Some hi =>
                      match after with
                      | String b1 (String b2 (String g1 (String g2 (String g3
                          (String g4 (String _ _ as after2)))))) =>
                          if is_high_surrogate hi && (b1 =? "\")%char && (b2 =? "u")%char
                          then
                            match hex4 g1 g2 g3 g4 with
                            | None => Bad Invalid_unicode_escape (String.length after - 1)
                            | Some lo =>
                                if is_low_surrogate lo
                                then scanstring start
                                       (acc ++ utf8_encode (join_surrogates hi lo)) after2
                                else scanstring start (acc ++ utf8_encode hi) after
                            end
                          else scanstring start (acc ++ utf8_encode hi) after
                      | _ => scanstring start (acc ++ utf8_encode hi) after
                      end
                  end
              | _ => Bad Invalid_unicode_escape (String.length t)
              end
            else
              match unescape e with
              | Some ch => scanstring start (acc ++ String ch "") u
              | None => Bad Invalid_escape (String.length s)
              end
        end
      else if between 0 31 c then Bad Invalid_control_character (String.length s)
      else scanstring start (acc ++ String c "") t
  end.

(** The longest run of digits [s] starts with, and what follows it. *)
Fixpoint span_digits (s : string) : string * string :=
  match s with
  | "" => ("", "")
  | String c t =>
      if is_digit c
      then let (d, r) := span_digits t in (String c d, r)
      else ("", s)
  end.

Fixpoint digits_value (acc : Z) (ds : string) : Z :=
  match ds with
  | "" => acc
  | String c t => digits_value (acc * 10 + (Z.of_N (N_of_ascii c) - 48))%Z t
  end.

Definition is_empty (s : string) : bool :=
  match s with "" => true | _ => false end.

(** The number [s] starts with and the count of bytes it spans: an
    optional sign, [0] or digits without a leading zero, then a fraction
    and an exponent when they are complete. *)
Definition lex_number (s : string) : option (json * nat) :=
  let (neg, body) :=
    match s with
    | String c t => if (c =? "-")%char then (true, t) else (false, s)
    | "" => (false, s)
    end in
  let int_part :=
    match body with
    | "" => None
    | String c t =>
        if (c =? "0")%char then Some ("0", t)
        else if is_digit c then Some (span_digits body)
        else None
    end in
  match int_part with
  | None => None
  | Some (ds, r1) =>
      let (frac, r2) :=
        match r1 with
        | String p t1 =>
            if (p =? ".")%char
            then let (fd, r) := span_digits t1 in
                 if is_empty fd then ("", r1) else (String p fd, r)
            else ("", r1)
        | "" => ("", r1)
        end in
      let exp :=
        match r2 with
        | String e t2 =>
            if ((e =? "e") || (e =? "E"))%char
            then
              let (sign, t3) :=
                match t2 with
                | String g t3 =>
                    if ((g =? "+") || (g =? "-"))%char then (String g "", t3) else ("", t2)
                | "" => ("", t2)
                end in
              let (ed, _) := span_digits t3 in
              if is_empty ed then "" else String e sign ++ ed
            else ""
        | "" => ""
        end in
      let text := (if neg then "-" else "") ++ ds ++ frac ++ exp in
      let v := digits_value 0 ds in
      Some (if is_empty frac && is_empty exp
            then JInt (if neg then - v else v)%Z
            else JFloat text,
            String.length text)
  end.

Inductive token : Type :=
| TBeginDict | TEndDict | TBeginList | TEndList | TColon | TComma
| TString (s : string)
| TBadString (f : fault) (away : nat)
| TAtom (v : json)
| TJunk.

(** What the text [s] starts with and how many bytes it spans; white space
    is no token. *)
Definition lex (s : string) : option token * nat :=
  match s with
  | "" => (None, 0)
  | String c t =>
      if is_whitespace c then (None, 1)
      else if (c =? "{")%char then (Some TBeginDict, 1)
      else if (c =? "}")%char then (Some TEndDict, 1)
      else if (c =? "[")%char then (Some TBeginList, 1)
      else if (c =? "]")%char then (Some TEndList, 1)
      else if (c =? ":")%char then (Some TColon, 1)
      else if (c =? ",")%char then (Some TComma, 1)
      else if (c =? quote)%char then
        match scanstring (String.length s) "" t with
        | Str v rest => (Some (TString v), String.length s - String.length rest)
        | Bad f away => (Some (TBadString f away), 1)
        end
      else if prefix "null" s then (Some (TAtom JNull), 4)
      else if prefix "true" s then (Some (TAtom (JBool true)), 4)
      else if prefix "false" s then (Some (TAtom (JBool false)), 5)
      else if prefix "NaN" s then (Some (TAtom (JFloat "NaN")), 3)
      else if prefix "Infinity" s then (Some (TAtom (JFloat "Infinity")), 8)
      else if prefix "-Infinity" s then (Some (TAtom (JFloat "-Infinity")), 9)
      else
        match lex_number s with
        | Some (v, n) => (Some (TAtom v), n)
        | None => (Some TJunk, 1)
        end
  end.

(** The tokens of [s], each with the number of bytes from its first byte
    to the end. *)
Fixpoint tokenize (skip : nat) (s : string) : list (token * nat) :=
  match s with
  | "" => []
  | String _ t =>
      match skip with
      | S k => tokenize k t
      | O =>
          let (tok, n) := lex s in
          match tok with
          | Some tk => (tk, String.length s) :: tokenize (n - 1) t
          | None => tokenize (n - 1) t
          end
      end
  end.

(** A container that waits for the value being read. *)
Inductive frame : Type :=
| InList (items : list json)
| InDict (pairs : list (string * json)) (key : string).

(** What the decoder expects next. *)
Inductive state : Type :=
| Value
| FirstItem
| FirstKey
| Key (pairs : list (string * json))
| Colon (pairs : list (string * json)) (key : string)
| ListDelim (items : list json)
| DictDelim (pairs : list (string * json))
| Finished (v : json).

(** A value is complete: it goes to the container that waits for it. *)
Definition deliver (v : json) (stack : list frame) : state * list frame :=
  match stack with
  | [] => (Finished v, [])
  | InList items :: up => (ListDelim (items ++ [v])%list, up)
  | InDict pairs key :: up => (DictDelim (Py.dict_set key v pairs), up)
  end.

Definition begin_value (tok : token) (away : nat) (stack : list frame)
  : state * list frame + fault * nat :=
  match tok with
  | TString s => inl (deliver (JStr s) stack)
  | TBadString f at_ => inr (f, at_)
  | TAtom v => inl (deliver v stack)
  | TBeginList => inl (FirstItem, stack)
  | TBeginDict => inl (FirstKey, stack)
  | _ => inr (Expecting_value, away)
  end.

Definition begin_key (pairs : list (string * json)) (tok : token) (away : nat)
  (stack : list frame) : state * list frame + fault * nat :=
  match tok with
  | TString k => inl (Colon pairs k, stack)
  | TBadString f at_ => inr (f, at_)
  | _ => inr (Expecting_property_name, away)
  end.

Definition step (st : state) (stack : list frame) (tok : token) (away : nat)
  : state * list frame + fault * nat :=
  match st with
  | Value => begin_value tok away stack
  | FirstItem =>
      match tok with
      | TEndList => inl (deliver (JList []) stack)
      | _ => begin_value tok away (InList [] :: stack)
      end
  | FirstKey =>
      match tok with
      | TEndDict => inl (deliver (JDict []) stack)
      | _ => begin_key [] tok away stack
      end
  | Key pairs => begin_key pairs tok away stack
  | Colon pairs key =>
      match tok with
      | TColon => inl (Value, InDict pairs key :: stack)
      | _ => inr (Expecting_colon, away)
      end
  | ListDelim items =>
      match tok with
      | TComma => inl (Value, InList items :: stack)
      | TEndList => inl (deliver (JList items) stack)
      | _ => inr (Expecting_comma, away)
      end
  | DictDelim pairs =>
      match tok with
      | TComma => inl (Key pairs, stack)
      | TEndDict => inl (deliver (JDict pairs) stack)
      | _ => inr (Expecting_comma, away)
      end
  | Finished _ => inr (Extra_data, away)
  end.

(** The document ends in state [st]. *)
Definition finish (st : state) : json + fault * nat :=
  match st with
  | Finished v => inl v
  | Value | FirstItem => inr (Expecting_value, 0)
  | FirstKey | Key _ => inr (Expecting_property_name, 0)
  | Colon _ _ => inr (Expecting_colon, 0)
  | ListDelim _ | DictDelim _ => inr (Expecting_comma, 0)
  end.

Fixpoint parse (st : state) (stack : list frame) (toks : list (token * nat))
  : json + fault * nat :=
  match toks with
  | [] => finish st
  | (tok, away) :: rest =>
      match step st stack tok away with
      | inl (st', stack') => parse st' stack' rest
      | inr e => inr e
      end
  end.

(** Line, column and index (all counted in characters) of the position
    that follows the bytes [s]. *)
Fixpoint locate (line col idx : nat) (s : string) : nat * nat * nat :=
  match s with
  | "" => (line, col, idx)
  | String c t =>
      if between 128 191 c then locate line col idx t
      else if (c =? "010")%char then locate (S line) 1 (S idx) t
      else locate line (S col) (S idx) t
  end.

(** [str(e)] of the [JSONDecodeError] for fault [f] at [away] bytes from
    the end of [doc]. *)
Definition describe (f : fault) (doc : string) (away : nat) : string :=
  let '(line, col, idx) :=
    locate 1 1 0 (substring 0 (String.length doc - away) doc) in
  fault_text f ++ ": line " ++ str_of_nat line ++ " column " ++ str_of_nat col
    ++ " (char " ++ str_of_nat idx ++ ")".

Definition BOM : string := utf8_encode 65279.

(** [json.loads(doc)]. *)
Definition loads (doc : string) : json + exn :=
  if prefix BOM doc
  then inr (Exn JSONDecodeError (describe Unexpected_BOM doc (String.length doc)))
  else
    match parse Value [] (tokenize 0 doc) with
    | inl v => inl v
    | inr (f, away) => inr (Exn JSONDecodeError (describe f doc away))
    end.

End Json.

(** ** Effects: results, exceptions and the trace of calls *)

(** The calls that cross a component boundary, in the order they happen. *)
Inductive event : Type :=
| Resolver_called (subject budget skill_level time_availability learning_style : json)
| Model_called (prompt : string)
| Fallback_called (subject skill_level : json).

Inductive outcome (A : Type) : Type :=
| Returned (a : A)
| Raised (e : exn).

Arguments Returned {A} a.
Arguments Raised {A} e.

(** A computation extends the trace and returns or raises. *)
Definition M (A : Type) : Type := list event -> outcome A * list event.

Definition ret {A : Type} (a : A) : M A := fun tr => (Returned a, tr).

Definition raise {A : Type} (e : exn) : M A := fun tr => (Raised e, tr).

Definition bind {A B : Type} (m : M A) (k : A -> M B) : M B :=
  fun tr =>
    match m tr with
    | (Returned a, tr') => k a tr'
    | (Raised e, tr') => (Raised e, tr')
    end.

(** [try: body / except Exception as e: handler(e)].  An exception raised by
    the handler itself leaves the statement. *)
Definition try_except {A : Type} (body : M A) (handler : exn -> M A) : M A :=
  fun tr =>
    match body tr with
    | (Returned a, tr') => (Returned a, tr')
    | (Raised e, tr') => handler e tr'
    end.

Definition emit (ev : event) : M unit := fun tr => (Returned tt, (tr ++ [ev])%list).

(** The result of a call into a library. *)
Definition lift {A : Type} (r : A + exn) : M A :=
  match r with
  | inl a => ret a
  | inr e => raise e
  end.

Declare Scope monad_scope.
Delimit Scope monad_scope with monad.
Notation "x <- c ;; k" := (bind c (fun x => k))
  (at level 61, c at next level, right associativity) : monad_scope.
Notation "c ;; k" := (bind c (fun _ => k))
  (at level 61, right associativity) : monad_scope.
Local Open Scope monad_scope.

(** [l[i]]. *)
Definition index {A : Type} (l : list A) (i : nat) : M A :=
  match nth_error l i with
  | Some a => ret a
  | None => raise (Exn IndexError "list index out of range")
  end.

Definition no_attribute (v : json) (name : string) : exn :=
  Exn AttributeError
    ("'" ++ Py.type_name v ++ "' object has no attribute '" ++ name ++ "'").

(** [data.get(key, default)]: only a dictionary has the method. *)
Definition dict_get (data : json) (key : string) (default : json) : M json :=
  match data with
  | JDict pairs => ret (Py.get key default pairs)
  | _ => raise (no_attribute data "get")
  end.

(** [print(text)]. *)
Definition print (text : string) : M unit :=
  match Codec.encode_fault text with
  | Some e => raise e
  | None => ret tt
  end.

(** [v.lower()]: only a string has the method. *)
Definition str_lower {rt : PyRuntime} (v : json) : M string :=
  match v with
  | JStr s => ret (unicode_lower s)
  | _ => raise (no_attribute v "lower")
  end.

(** ** The service *)

(** The process environment and the provider: the credential as
    [os.environ.get] returns it, and the text of the model's reply to a
    prompt ([generate_content(prompt).text]) or the exception the call
    raises. *)
Record Env : Type := {
  GOOGLE_API_KEY : option string;
  generate_content : string -> string + exn
}.

(** An HTTP response: the JSON body and the status code. *)
Record response : Type := Response { body : json; status : nat }.

(** [jsonify(v)], with the default status. *)
Definition jsonify (v : json) : response := Response v 200.

(** [not api_key]. *)
Definition not_set (api_key : option string) : bool :=
  match api_key with
  | None => true
  | Some k => String.eqb k ""
  end.

(** The model capability, or [ValueError] when no credential is
    configured. *)
Definition initialize_gemini (env : Env) : M (string -> string + exn) :=
  let api_key := GOOGLE_API_KEY env in
  if not_set api_key
  then raise (Exn ValueError
         "Missing GOOGLE_API_KEY environment variable. Please check your .env file.")
  else ret (generate_content env).

(** The candidate JSON text inside a reply: the content of the first block
    fenced with the [json] tag, else of the first fenced block, else the
    whole reply. *)
Definition json_str (response_text : string) : M string :=
  if str_in "```json" response_text then
    after <- index (split "```json" response_text) 1 ;;
    inside <- index (split "```" after) 0 ;;
    ret (strip inside)
  else if str_in "```" response_text then
    inside <- index (split "```" response_text) 1 ;;
    ret (strip inside)
  else ret response_text.

Section Service.

Context {rt : PyRuntime}.

(** The f-string sent to the model. *)
Definition prompt (subject budget skill_level time_availability learning_style : json)
  : string :=
  nl ++
  "        Act as a course recommendation system. Provide course recommendations based on the following parameters:" ++ nl ++
  "        - Subject: " ++ Py.str subject ++ nl ++
  "        - Budget: " ++ Py.str budget ++ nl ++
  "        - Skill Level: " ++ Py.str skill_level ++ nl ++
  "        - Time Availability: " ++ Py.str time_availability ++ nl ++
  "        - Learning Style: " ++ Py.str learning_style ++ nl ++
  nl ++
  "        ### **Instructions for Course URLs:**" ++ nl ++
  "        - Only recommend courses from real platforms like **Coursera, YouTube, GeeksForGeeks, Udemy, edX, LinkedIn Learning, Pluralsight, or Khan Academy**." ++ nl ++
  "        - **DO NOT generate fake URLs.** Only provide real, verifiable course links." ++ nl ++
  "        - If you are unsure about a course URL, mention **" ++ quoted "URL not found" ++ "** instead of a fake link." ++ nl ++
  nl ++
  "        Return your response in the following JSON format:" ++ nl ++
  "        {" ++ nl ++
  "            " ++ quoted "recommendations" ++ ": [" ++ nl ++
  "                {" ++ nl ++
  "                    " ++ quoted "course_name" ++ ": " ++ quoted "Course name" ++ "," ++ nl ++
  "                    " ++ quoted "platform" ++ ": " ++ quoted "Platform name" ++ "," ++ nl ++
  "                    " ++ quoted "cost" ++ ": " ++ quoted "Cost in USD" ++ "," ++ nl ++
  "                    " ++ quoted "duration" ++ ": " ++ quoted "Estimated completion time" ++ "," ++ nl ++
  "                    " ++ quoted "description" ++ ": " ++ quoted "Brief description" ++ "," ++ nl ++
  "                    " ++ quoted "url" ++ ": " ++ quoted "Real course link or 'URL not found'" ++ "," ++ nl ++
  "                    " ++ quoted "skill_level" ++ ": " ++ quoted "Beginner/Intermediate/Advanced" ++ nl ++
  "                }" ++ nl ++
  "            ]," ++ nl ++
  "            " ++ quoted "roadmap" ++ ": [" ++ nl ++
  "                {" ++ nl ++
  "                    " ++ quoted "stage" ++ ": " ++ quoted "Stage 1: Fundamentals" ++ "," ++ nl ++
  "                    " ++ quoted "description" ++ ": " ++ quoted "Description of this stage" ++ "," ++ nl ++
  "                    " ++ quoted "estimated_time" ++ ": " ++ quoted "Time to complete this stage" ++ "," ++ nl ++
  "                    " ++ quoted "key_skills" ++ ": [" ++ quoted "skill1" ++ ", " ++ quoted "skill2" ++ ", " ++ quoted "skill3" ++ "]," ++ nl ++
  "                    " ++ quoted "resources" ++ ": [" ++ quoted "resource1" ++ ", " ++ quoted "resource2" ++ "]" ++ nl ++
  "                }" ++ nl ++
  "            ]," ++ nl ++
  "            " ++ quoted "additional_tips" ++ ": " ++ quoted "Additional learning tips" ++ nl ++
  "        }" ++ nl ++
  "        ".

Definition course (course_name platform cost duration description url skill_level : json)
  : json :=
  JDict [("course_name", course_name); ("platform", platform); ("cost", cost);
         ("duration", duration); ("description", description); ("url", url);
         ("skill_level", skill_level)].

Definition stage (name description estimated_time : string)
  (key_skills resources : list string) : json :=
  JDict [("stage", JStr name); ("description", JStr description);
         ("estimated_time", JStr estimated_time);
         ("key_skills", JList (map JStr key_skills));
         ("resources", JList (map JStr resources))].

(** The canned payload. *)
Definition get_fallback_data (subject skill_level : json) : M json :=
  emit (Fallback_called subject skill_level) ;;
  print "Using fallback data" ;;
  lowered <- str_lower skill_level ;;
  ret (JDict
    [("recommendations", JList
        [course (JStr (Py.str subject ++ " for " ++ Py.str skill_level ++ "s"))
                (JStr "Coursera") (JStr "$49.99") (JStr "8 weeks")
                (JStr ("A comprehensive introduction to " ++ Py.str subject
                         ++ " designed for " ++ lowered ++ " learners."))
                (JStr "https://coursera.org") skill_level;
         course (JStr ("Advanced " ++ Py.str subject))
                (JStr "Udemy") (JStr "$29.99") (JStr "10 weeks")
                (JStr ("Take your " ++ Py.str subject
                         ++ " skills to the next level with practical projects."))
                (JStr "https://udemy.com") (JStr "Intermediate");
         course (JStr (Py.str subject ++ " Bootcamp"))
                (JStr "edX") (JStr "$199.99") (JStr "12 weeks")
                (JStr ("Intensive " ++ Py.str subject
                         ++ " training with industry experts."))
                (JStr "https://edx.org") (JStr "Advanced")]);
     ("roadmap", JList
        [stage "Stage 1: Fundamentals"
               ("Learn the basic concepts and principles of " ++ Py.str subject)
               "4 weeks"
               ["Basic concepts"; "Terminology"; "Simple applications"]
               ["Textbooks"; "Online tutorials"];
         stage "Stage 2: Practical Application"
               ("Apply your knowledge of " ++ Py.str subject ++ " to real-world problems")
               "6 weeks"
               ["Problem-solving"; "Tool usage"; "Applied techniques"]
               ["Practice exercises"; "Case studies"];
         stage "Stage 3: Advanced Topics"
               ("Explore specialized areas within " ++ Py.str subject)
               "8 weeks"
               ["Advanced methodologies"; "Specialized tools"; "Research skills"]
               ["Academic papers"; "Expert workshops"]]);
     ("additional_tips", JStr
        ("Consider joining online communities related to " ++ Py.str subject
           ++ " to network with other learners and professionals."
           ++ " Consistent practice is key to mastering this field."))]).

(** [json.loads(doc)] as the interpreter runs it: the decoder, unless a
    resource limit interrupts it. *)
Definition decode (doc : string) : json + exn :=
  match interrupts doc with
  | Some e => inr e
  | None => Json.loads doc
  end.

(** From the reply to the decoded object: the two diagnostic lines, the
    extraction and the decoder. *)
Definition read_reply (response_text : string) : M json :=
  print ("Raw response: " ++ first_chars 500 response_text ++ "...") ;;
  json_str <- json_str response_text ;;
  print ("Extracted JSON string: " ++ first_chars 500 json_str ++ "...") ;;
  recommendations <- lift (decode json_str) ;;
  ret recommendations.

(** The body of the [try] of the resolver: acquire the capability, call
    the model, extract the payload and decode it. *)
Definition ask_model (env : Env)
  (subject budget skill_level time_availability learning_style : json) : M json :=
  model <- initialize_gemini env ;;
  let prompt := prompt subject budget skill_level time_availability learning_style in
  print "Sending prompt to Gemini:" ;;
  print prompt ;;
  emit (Model_called prompt) ;;
  response_text <- lift (model prompt) ;;
  print "Received response from Gemini" ;;
  read_reply response_text.

(** The two [except] clauses of the resolver. *)
Definition on_exception (subject skill_level : json) (e : exn) : M json :=
  if is_ValueError e then
    print ("ValueError: " ++ exn_msg e) ;;
    if str_in "API key" (exn_msg e)
    then get_fallback_data subject skill_level
    else ret (JDict [("error", JStr (exn_msg e))])
  else
    print ("Error in get_course_recommendations: " ++ exn_msg e) ;;
    ret (JDict [("error", JStr ("Error getting recommendations: " ++ exn_msg e))]).

Definition get_course_recommendations (env : Env)
  (subject budget skill_level time_availability learning_style : json) : M json :=
  emit (Resolver_called subject budget skill_level time_availability learning_style) ;;
  try_except
    (ask_model env subject budget skill_level time_availability learning_style)
    (on_exception subject skill_level).

(** The handler of [POST /get_recommendations]; [data] is [request.json]. *)
Definition recommendations (env : Env) (data : json) : M response :=
  try_except
    (print ("Received data: " ++ Py.str data) ;;
     subject <- dict_get data "subject" (JStr "") ;;
     budget <- dict_get data "budget" (JStr "") ;;
     skill_level <- dict_get data "skillLevel" (JStr "") ;;
     time_availability <- dict_get data "timeAvailability" (JStr "") ;;
     learning_style <- dict_get data "learningStyle" (JStr "") ;;
     if negb (Py.truthy subject)
     then ret (Response (JDict [("error", JStr "Subject is required")]) 400)
     else
       print ("Calling Gemini API with params: " ++ Py.str subject ++ ", "
                ++ Py.str budget ++ ", " ++ Py.str skill_level ++ ", "
                ++ Py.str time_availability ++ ", " ++ Py.str learning_style) ;;
       result <- get_course_recommendations env subject budget skill_level
                   time_availability learning_style ;;
       print ("API response: " ++ Py.str result) ;;
       ret (jsonify result))
    (fun e =>
       print ("Error in recommendations route: " ++ exn_msg e) ;;
       ret (Response (JDict [("error", JStr ("Server error: " ++ exn_msg e))]) 500)).

(** The body that reports [message]. *)
Definition error_body (message : string) : json :=
  JDict [("error", JStr message)].

(** The text the resolver reports for an exception in its [try]. *)
Definition diagnostic (e : exn) : string :=
  if is_ValueError e then exn_msg e
  else "Error getting recommendations: " ++ exn_msg e.

(** The exceptions the resolver answers with the canned payload. *)
Definition names_api_key (e : exn) : bool :=
  is_ValueError e && str_in "API key" (exn_msg e).

(** One request, from an empty trace. *)
Definition post (env : Env) (data : json) : outcome response * list event :=
  recommendations env data [].

End Service.

Arguments prompt : simpl never.

(** ** Environments and requests of the scenarios *)

Module Scenario.

(** A runtime for the concrete runs: no float, list or dictionary is
    rendered or tested in them, their texts are ASCII and no resource limit
    is met. *)
Definition runtime : PyRuntime :=
  {| float_bool := fun _ => true;
     repr_value := fun _ => "";
     unicode_lower := lower_ascii;
     interrupts := fun _ => None;
     repr_value_encodable := fun _ => eq_refl;
     unicode_lower_ascii := fun _ _ => eq_refl;
     interrupts_text := fun doc e (H : None = Some e) =>
       match H in _ = o return match o with Some _ => _ | None => True end with
       | eq_refl => I
       end |}.

(** No credential is configured. *)
Definition no_credential : Env :=
  {| GOOGLE_API_KEY := None;
     generate_content := fun _ => inl "{}" |}.

(** A credential is configured and the model replies [text]. *)
Definition replying (text : string) : Env :=
  {| GOOGLE_API_KEY := Some "key";
     generate_content := fun _ => inl text |}.

(** A credential is configured and the call to the model raises [e]. *)
Definition failing (e : exn) : Env :=
  {| GOOGLE_API_KEY := Some "key";
     generate_content := fun _ => inr e |}.

(** [{"subject": "Python", "skillLevel": "Beginner"}]. *)
Definition python_beginner : json :=
  JDict [("subject", JStr "Python"); ("skillLevel", JStr "Beginner")].

(** The text [{"a":1}]. *)
Definition a_is_1 : string := "{" ++ quoted "a" ++ ":1}".

(** A reply that holds both keys:
    [{"error": "x", "recommendations": []}]. *)
Definition both_keys : string :=
  "{" ++ quoted "error" ++ ": " ++ quoted "x" ++ ", "
      ++ quoted "recommendations" ++ ": []}".

Definition rejected_key : exn :=
  Exn ValueError "API key not valid. Please pass a valid API key.".

Definition missing_key_message : string :=
  "Missing GOOGLE_API_KEY environment variable. Please check your .env file.".

End Scenario.

(** ** Observations on a run *)

(** The status code, the body and the trace of a handled request. *)
Definition status_of (run : outcome response * list event) : option nat :=
  match fst run with
  | Returned resp => Some (status resp)
  | Raised _ => None
  end.

Definition body_of (run : outcome response * list event) : option json :=
  match fst run with
  | Returned resp => Some (body resp)
  | Raised _ => None
  end.

Definition trace_of (run : outcome response * list event) : list event := snd run.

(** The text [json_str] extracts from a reply. *)
Definition candidate (response_text : string) : string :=
  match json_str response_text [] with
  | (Returned text, _) => text
  | (Raised _, _) => response_text
  end.

(** The payload [get_fallback_data] returns, [None] when it raises. *)
Definition canned {rt : PyRuntime} (subject skill_level : json) : option json :=
  match get_fallback_data subject skill_level [] with
  | (Returned payload, _) => Some payload
  | (Raised _, _) => None
  end.

(** The five values hold no lone surrogate once rendered by [str], which is
    to say that every text among them can be printed. *)
Definition encodable {rt : PyRuntime} (v : json) : bool :=
  negb (has_surrogate (Py.str v)).

Definition params_encodable {rt : PyRuntime}
  (subject budget skill_level time_availability learning_style : json) : bool :=
  encodable subject && encodable budget && encodable skill_level
  && encodable time_availability && encodable learning_style.

(** The line the handler prints before it calls the resolver. *)
Definition params_line {rt : PyRuntime}
  (subject budget skill_level time_availability learning_style : json) : string :=
  "Calling Gemini API with params: " ++ Py.str subject ++ ", "
    ++ Py.str budget ++ ", " ++ Py.str skill_level ++ ", "
    ++ Py.str time_availability ++ ", " ++ Py.str learning_style.

(** The line an [except] clause of the resolver prints for [e]. *)
Definition handler_line (e : exn) : string :=
  if is_ValueError e then "ValueError: " ++ exn_msg e
  else "Error in get_course_recommendations: " ++ exn_msg e.

(** The answer with status 500 for an exception that reached the handler's
    [except] clause. *)
Definition server_error (e : exn) : response :=
  Response (JDict [("error", JStr ("Server error: " ++ exn_msg e))]) 500.

(** What [read_reply] makes of a reply. *)
Definition reply_outcome {rt : PyRuntime} (response_text : string) : outcome json :=
  fst (read_reply response_text []).

(** ** The JSON format the prompt asks for

    The shape written out at the end of the prompt: courses and stages with
    exactly the keys of the example, texts where the example has texts and
    lists of texts where it has lists. *)

Module Format.

Definition is_str (v : json) : bool :=
  match v with
  | JStr _ => true
  | _ => false
  end.

Definition is_str_list (v : json) : bool :=
  match v with
  | JList items => forallb is_str items
  | _ => false
  end.

Definition course_keys : list string :=
  ["course_name"; "platform"; "cost"; "duration"; "description"; "url"; "skill_level"].

Definition stage_keys : list string :=
  ["stage"; "description"; "estimated_time"; "key_skills"; "resources"].

Definition result_keys : list string :=
  ["recommendations"; "roadmap"; "additional_tips"].

Fixpoint same_keys (keys : list string) (pairs : list (string * json)) : bool :=
  match keys, pairs with
  | [], [] => true
  | k :: keys', (k', _) :: pairs' => String.eqb k k' && same_keys keys' pairs'
  | _, _ => false
  end.

Definition is_course (v : json) : bool :=
  match v with
  | JDict pairs => same_keys course_keys pairs && forallb (fun kv => is_str (snd kv)) pairs
  | _ => false
  end.

Definition is_stage (v : json) : bool :=
  match v with
  | JDict [(k1, stage); (k2, description); (k3, estimated_time);
           (k4, key_skills); (k5, resources)] =>
      same_keys stage_keys
        [(k1, stage); (k2, description); (k3, estimated_time);
         (k4, key_skills); (k5, resources)]
      && is_str stage && is_str description && is_str estimated_time
      && is_str_list key_skills && is_str_list resources
  | _ => false
  end.

Definition conforms (v : json) : bool :=
  match v with
  | JDict [(k1, JList courses); (k2, JList stages); (k3, JStr _)] =>
      same_keys result_keys [(k1, JNull); (k2, JNull); (k3, JNull)]
      && forallb is_course courses && forallb is_stage stages
  | _ => false
  end.

End Format.

(** * Properties *)

(** ** Substring tests *)

Lemma prefix_app (x b : string) : prefix x (x ++ b) = true.
Proof.
  induction x as [|c x IH]; simpl.
  - destruct b; reflexivity.
  - destruct (ascii_dec c c) as [_|ne]; [exact IH | now elim ne].
Qed.

Lemma prefix_app_l (x a b : string) : prefix x a = true -> prefix x (a ++ b) = true.
Proof.
  revert a. induction x as [|c x IH]; intros a H.
  - destruct (a ++ b); reflexivity.
  - destruct a as [|d a]; simpl in *; [discriminate|].
    destruct (ascii_dec c d); [now apply IH | discriminate].
Qed.

Lemma str_in_unfold (x s : string) :
  str_in x s = prefix x s || match s with "" => false | String _ t => str_in x t end.
Proof. destruct s; reflexivity. Qed.

Lemma str_in_here (x b : string) : str_in x (x ++ b) = true.
Proof. rewrite str_in_unfold, prefix_app. reflexivity. Qed.

Lemma str_in_app_l (x a b : string) : str_in x a = true -> str_in x (a ++ b) = true.
Proof.
  induction a as [|c a IH]; intros H.
  - simpl in H. rewrite orb_false_r in H.
    rewrite str_in_unfold, (prefix_app_l x "" b H). reflexivity.
  - rewrite str_in_unfold in H. apply orb_true_iff in H as [H|H].
    + rewrite str_in_unfold, (prefix_app_l _ _ b H). reflexivity.
    + simpl. rewrite (IH H). apply orb_true_r.
Qed.

Lemma str_in_app_r (x a b : string) : str_in x b = true -> str_in x (a ++ b) = true.
Proof.
  intros H. induction a as [|c a IH]; [exact H|].
  simpl. rewrite IH. apply orb_true_r.
Qed.

(** Looks for [x] in a concatenation, piece by piece. *)
Ltac find_piece :=
  first
    [ apply str_in_here
    | apply str_in_app_l; vm_compute; reflexivity
    | apply str_in_app_r; find_piece ].

(** ** The prompt *)

(** C7. The prompt is a total function of the five inputs, and for all
    strings given as inputs it contains "Coursera", "YouTube",
    "URL not found" and each of the five strings. *)
Theorem prompt_contents (rt : PyRuntime)
    (subject budget skill_level time_availability learning_style : string) :
  let p := prompt (JStr subject) (JStr budget) (JStr skill_level)
             (JStr time_availability) (JStr learning_style) in
  str_in "Coursera" p = true /\
  str_in "YouTube" p = true /\
  str_in "URL not found" p = true /\
  str_in subject p = true /\
  str_in budget p = true /\
  str_in skill_level p = true /\
  str_in time_availability p = true /\
  str_in learning_style p = true.
Proof.
  cbv zeta. unfold prompt, Py.str.
  repeat split; find_piece.
Qed.

(** ** Extraction and decoding *)


(** The decoder at work: a repeated key keeps its first place and its last
    value, a number with a leading zero stops after the zero, and a comma
    before the closing bracket leaves a value expected. *)
Example loads_examples :
  Json.loads ("{" ++ quoted "a" ++ ": 1, " ++ quoted "b" ++ ": [true, null], "
                ++ quoted "a" ++ ": -2}")
    = inl (JDict [("a", JInt (-2)); ("b", JList [JBool true; JNull])]) /\
  Json.loads "[01]"
    = inr (Exn JSONDecodeError "Expecting ',' delimiter: line 1 column 3 (char 2)") /\
  Json.loads ("[1," ++ nl ++ "]")
    = inr (Exn JSONDecodeError "Expecting value: line 2 column 1 (char 4)").
Proof. repeat split; vm_compute; reflexivity. Qed.

(** A split has a first piece. *)
Lemma split_from_nonempty (sep : string) (s : string) :
  forall skip cur, exists p ps, split_from sep skip cur s = p :: ps.
Proof.
  induction s as [|c t IH]; intros skip cur; cbn [split_from].
  - eauto.
  - destruct skip as [|k]; [|apply IH].
    destruct (prefix sep (String c t)); [eauto | apply IH].
Qed.

(** A text that contains the separator splits into two pieces at least. *)
Lemma split_from_two (sep : string) (s : string) :
  sep <> "" ->
  forall cur, str_in sep s = true ->
    exists p q qs, split_from sep 0 cur s = p :: q :: qs.
Proof.
  intros Hsep. induction s as [|c t IH]; intros cur H.
  - destruct sep; [now elim Hsep | discriminate].
  - rewrite str_in_unfold in H. cbn [split_from].
    destruct (prefix sep (String c t)) eqn:Hp.
    + destruct (split_from_nonempty sep t (String.length sep - 1) "") as (q & qs & ->).
      eauto.
    + apply IH. exact H.
Qed.

(** The extraction never raises and leaves the trace as it is. *)
Lemma json_str_returns (response_text : string) :
  exists candidate, forall tr, json_str response_text tr = (Returned candidate, tr).
Proof.
  unfold json_str.
  destruct (str_in "```json" response_text) eqn:Htag.
  - destruct (split_from_two "```json" response_text ltac:(discriminate) "" Htag)
      as (p & q & qs & Hs).
    destruct (split_from_nonempty "```" q 0 "") as (a & l & Ha).
    exists (strip a). intros tr.
    unfold split, bind, index. rewrite Hs. simpl. unfold ret at 1.
    unfold split in Ha. rewrite Ha. reflexivity.
  - destruct (str_in "```" response_text) eqn:Hfence.
    + destruct (split_from_two "```" response_text ltac:(discriminate) "" Hfence)
        as (p & q & qs & Hs).
      exists (strip q). intros tr.
      unfold split, bind, index. rewrite Hs. reflexivity.
    + exists response_text. reflexivity.
Qed.

(** ** The decoder's diagnostics never mention an API key *)

Lemma has_char_app (c : ascii) (a b : string) :
  has_char c (a ++ b) = has_char c a || has_char c b.
Proof.
  induction a as [|d a IH]; simpl; [reflexivity|].
  rewrite IH. apply orb_assoc.
Qed.

Lemma str_in_api_key_has_P (s : string) :
  str_in "API key" s = true -> has_char "P" s = true.
Proof.
  induction s as [|c t IH]; intros H; [discriminate|].
  rewrite str_in_unfold in H. apply orb_true_iff in H as [H|H].
  - cbn [prefix] in H. destruct (ascii_dec "A" c); [|discriminate].
    destruct t as [|d t]; [discriminate|]. cbn [prefix] in H.
    destruct (ascii_dec "P" d) as [Hd|]; [|discriminate].
    subst d. simpl. apply orb_true_r.
  - simpl. rewrite (IH H). apply orb_true_r.
Qed.

Lemma digits_no_P (d : Decimal.uint) : has_char "P" (NilEmpty.string_of_uint d) = false.
Proof. induction d; simpl; auto. Qed.

Lemma str_of_nat_no_P (n : nat) : has_char "P" (str_of_nat n) = false.
Proof.
  unfold str_of_nat, NilZero.string_of_uint.
  destruct (Nat.to_uint n); try apply digits_no_P; reflexivity.
Qed.

Lemma describe_no_P (f : Json.fault) (doc : string) (away : nat) :
  has_char "P" (Json.describe f doc away) = false.
Proof.
  unfold Json.describe.
  destruct (Json.locate 1 1 0 _) as [[line col] idx].
  rewrite !has_char_app, !str_of_nat_no_P.
  destruct f; reflexivity.
Qed.

(** A fault of the decoder is a [JSONDecodeError], hence a [ValueError],
    and its text does not contain "API key". *)
Lemma loads_fault (doc : string) (e : exn) :
  Json.loads doc = inr e ->
  is_ValueError e = true /\ str_in "API key" (exn_msg e) = false.
Proof.
  unfold Json.loads. intros H.
  assert (exists f away, e = Exn JSONDecodeError (Json.describe f doc away))
    as (f & away & ->).
  { destruct (prefix Json.BOM doc).
    - injection H as <-. eauto.
    - destruct (Json.parse _ _ _) as [v|[f away]]; [discriminate|].
      injection H as <-. eauto. }
  split; [reflexivity|].
  destruct (str_in "API key" _) eqn:Hin; [|reflexivity].
  apply str_in_api_key_has_P in Hin. simpl in Hin.
  rewrite describe_no_P in Hin. discriminate.
Qed.

(** ** The extraction in general *)

Lemma append_empty_r (s : string) : s ++ "" = s.
Proof. induction s as [|c s IH]; simpl; [reflexivity | now rewrite IH]. Qed.

Lemma append_assoc (a b c : string) : (a ++ b) ++ c = a ++ b ++ c.
Proof. induction a as [|x a IH]; simpl; [reflexivity | now rewrite IH]. Qed.

Lemma length_append (a b : string) :
  String.length (a ++ b) = String.length a + String.length b.
Proof. induction a as [|x a IH]; simpl; [reflexivity | now rewrite IH]. Qed.

(** A text that does not start with [s] still does not once extended,
    when it is long enough to tell. *)
Lemma prefix_false_app (s x y : string) :
  prefix s x = false -> String.length s <= String.length x ->
  prefix s (x ++ y) = false.
Proof.
  revert x. induction s as [|c s IH]; intros x H Hlen.
  - destruct x; discriminate.
  - destruct x as [|d x]; [simpl in Hlen; lia|].
    cbn [prefix append] in *. destruct (ascii_dec c d); [|reflexivity].
    apply IH; [exact H | simpl in Hlen; lia].
Qed.

(** A longer needle is found only where the shorter one is. *)
Lemma prefix_weaken (a b s : string) : prefix (a ++ b) s = true -> prefix a s = true.
Proof.
  revert s. induction a as [|c a IH]; intros s H.
  - destruct s; reflexivity.
  - destruct s as [|d s]; cbn [prefix append] in *; [discriminate|].
    destruct (ascii_dec c d); [now apply IH | discriminate].
Qed.

Lemma str_in_weaken (a b s : string) : str_in (a ++ b) s = true -> str_in a s = true.
Proof.
  induction s as [|c s IH]; intros H;
    rewrite str_in_unfold in H; rewrite str_in_unfold.
  - rewrite orb_false_r in *. now apply prefix_weaken with b.
  - apply orb_true_iff in H as [H|H].
    + rewrite (prefix_weaken _ _ _ H). reflexivity.
    + rewrite (IH H). apply orb_true_r.
Qed.

(** Passing over the rest of a separator. *)
Lemma split_from_skip (sep x cur rest : string) :
  split_from sep (String.length x) cur (x ++ rest) = split_from sep 0 cur rest.
Proof.
  induction x as [|c x IH]; [destruct rest; reflexivity|].
  cbn [String.length append split_from]. exact IH.
Qed.

(** Without an occurrence of the separator the text is one piece. *)
Lemma split_from_none (sep s cur : string) :
  str_in sep s = false -> split_from sep 0 cur s = [cur ++ s].
Proof.
  revert cur. induction s as [|c s IH]; intros cur H.
  - cbn. now rewrite append_empty_r.
  - rewrite str_in_unfold in H. apply orb_false_iff in H as [Hp Hs].
    cbn [split_from]. rewrite Hp, (IH _ Hs), append_assoc. reflexivity.
Qed.

(** The first piece ends where the separator first occurs: [pre] is cut off
    when no occurrence starts inside it, which is to say when the separator
    is not found in [pre] followed by all but the last character of the
    separator. *)
Lemma split_from_first (sep' : string) (l : ascii) (pre rest cur : string) :
  str_in (sep' ++ String l "") (pre ++ sep') = false ->
  split_from (sep' ++ String l "") 0 cur (pre ++ (sep' ++ String l "") ++ rest) =
    (cur ++ pre) :: split_from (sep' ++ String l "") 0 "" rest.
Proof.
  set (sep := sep' ++ String l "").
  revert cur. induction pre as [|c pre IH]; intros cur H.
  - rewrite append_empty_r. cbn [append].
    assert (Hp : prefix sep (sep ++ rest) = true) by apply prefix_app.
    destruct sep as [|c0 s0] eqn:Hsep.
    { apply (f_equal String.length) in Hsep. unfold sep in Hsep.
      rewrite length_append in Hsep. simpl in Hsep. lia. }
    cbn [append split_from] in *. rewrite Hp.
    replace (String.length (String c0 s0) - 1) with (String.length s0)
      by (simpl; lia).
    rewrite split_from_skip. reflexivity.
  - rewrite str_in_unfold in H. apply orb_false_iff in H as [Hp Hs].
    cbn [append] in Hs.
    assert (Hp' : prefix sep (String c pre ++ sep ++ rest) = false).
    { unfold sep at 2. rewrite (append_assoc sep'), <- (append_assoc (String c pre)).
      apply prefix_false_app; [exact Hp|].
      unfold sep. rewrite !length_append. simpl. lia. }
    cbn [append split_from] in *. rewrite Hp'.
    rewrite (IH _ Hs), append_assoc. reflexivity.
Qed.

(** The two separators of the extraction. *)
Lemma split_tagged (pre rest : string) :
  str_in "```json" (pre ++ "```jso") = false ->
  split "```json" (pre ++ "```json" ++ rest) = pre :: split "```json" rest.
Proof. intros H. exact (split_from_first "```jso" "n" pre rest "" H). Qed.

Lemma split_fence (pre rest : string) :
  str_in "```" (pre ++ "``") = false ->
  split "```" (pre ++ "```" ++ rest) = pre :: split "```" rest.
Proof. intros H. exact (split_from_first "``" "`" pre rest "" H). Qed.

Lemma split_none (sep s : string) : str_in sep s = false -> split sep s = [s].
Proof. intros H. exact (split_from_none sep s "" H). Qed.

(** X11. A reply with a block tagged [json]: when the tag first occurs
    after [pre] (which may hold fences without a tag), occurs nowhere else,
    and the content has no fence, the candidate is the stripped content,
    whatever follows the closing fence. *)
Theorem json_str_tagged_block (pre content post : string) (tr : list event) :
  str_in "```json" (pre ++ "```jso") = false ->
  str_in "```json" (content ++ "```" ++ post) = false ->
  str_in "```" (content ++ "``") = false ->
  json_str (pre ++ "```json" ++ content ++ "```" ++ post) tr =
    (Returned (strip content), tr).
Proof.
  intros Hpre Hrest Hcontent. unfold json_str.
  replace (str_in "```json" (pre ++ "```json" ++ content ++ "```" ++ post)) with true
    by (symmetry; apply str_in_app_r, str_in_here).
  rewrite (split_tagged pre _ Hpre), (split_none _ _ Hrest).
  unfold bind, index. cbn [nth_error ret].
  rewrite (split_fence content post Hcontent). reflexivity.
Qed.

(** A block without a tag, then the tagged one: the tagged one is taken. *)
Lemma json_str_tagged_block_after_plain :
  let pre := "```" ++ nl ++ "sample" ++ nl ++ "```" ++ nl in
  let content := nl ++ Scenario.a_is_1 ++ nl in
  str_in "```json" (pre ++ "```jso") = false /\
  str_in "```json" (content ++ "```" ++ " Done.") = false /\
  str_in "```" (content ++ "``") = false /\
  json_str (pre ++ "```json" ++ content ++ "```" ++ " Done.") [] =
    (Returned Scenario.a_is_1, []).
Proof.
  cbv zeta. split; [reflexivity|]. split; [reflexivity|]. split; [reflexivity|].
  rewrite (json_str_tagged_block
             ("```" ++ nl ++ "sample" ++ nl ++ "```" ++ nl)
             (nl ++ Scenario.a_is_1 ++ nl) " Done." [] eq_refl eq_refl eq_refl).
  vm_compute. reflexivity.
Defined.

(** X12. A reply with a block without a tag and no [json] tag anywhere:
    when the fence first occurs after [pre] and the content has no fence,
    the candidate is the stripped content; a language tag other than
    [json] is part of that content. *)
Theorem json_str_plain_block (pre content post : string) (tr : list event) :
  str_in "```json" (pre ++ "```" ++ content ++ "```" ++ post) = false ->
  str_in "```" (pre ++ "``") = false ->
  str_in "```" (content ++ "``") = false ->
  json_str (pre ++ "```" ++ content ++ "```" ++ post) tr =
    (Returned (strip content), tr).
Proof.
  intros Htag Hpre Hcontent. unfold json_str. rewrite Htag.
  replace (str_in "```" (pre ++ "```" ++ content ++ "```" ++ post)) with true
    by (symmetry; apply str_in_app_r, str_in_here).
  rewrite (split_fence pre _ Hpre), (split_fence content post Hcontent).
  reflexivity.
Qed.

(** A block tagged [python]: the tag stays in the candidate. *)
Lemma json_str_plain_block_other_tag :
  let content := "python" ++ nl ++ Scenario.a_is_1 ++ nl in
  str_in "```json" ("Here:" ++ nl ++ "```" ++ content ++ "```" ++ "") = false /\
  str_in "```" (("Here:" ++ nl) ++ "``") = false /\
  str_in "```" (content ++ "``") = false /\
  json_str (("Here:" ++ nl) ++ "```" ++ content ++ "```" ++ "") [] =
    (Returned ("python" ++ nl ++ Scenario.a_is_1), []).
Proof.
  cbv zeta. split; [reflexivity|]. split; [reflexivity|]. split; [reflexivity|].
  rewrite (json_str_plain_block ("Here:" ++ nl)
             ("python" ++ nl ++ Scenario.a_is_1 ++ nl) "" [] eq_refl eq_refl eq_refl).
  vm_compute. reflexivity.
Defined.

(** X13. A fence that is never closed does not fail the extraction: after a
    [json] tag that first occurs after [pre], a rest without a fence is the
    candidate, stripped. *)
Theorem json_str_unclosed_block (pre rest : string) (tr : list event) :
  str_in "```json" (pre ++ "```jso") = false ->
  str_in "```" rest = false ->
  json_str (pre ++ "```json" ++ rest) tr = (Returned (strip rest), tr).
Proof.
  intros Hpre Hrest. unfold json_str.
  replace (str_in "```json" (pre ++ "```json" ++ rest)) with true
    by (symmetry; apply str_in_app_r, str_in_here).
  assert (Htag : str_in "```json" rest = false).
  { destruct (str_in "```json" rest) eqn:H; [|reflexivity].
    change "```json" with ("```" ++ "json") in H.
    apply str_in_weaken in H. congruence. }
  rewrite (split_tagged pre rest Hpre), (split_none _ _ Htag).
  unfold bind, index. cbn [nth_error ret].
  rewrite (split_none _ _ Hrest). reflexivity.
Qed.

(** A reply cut off inside the block. *)
Lemma json_str_unclosed_block_run :
  str_in "```json" ("" ++ "```jso") = false /\
  str_in "```" (nl ++ Scenario.a_is_1) = false /\
  json_str ("" ++ "```json" ++ nl ++ Scenario.a_is_1) [] =
    (Returned Scenario.a_is_1, []).
Proof.
  split; [reflexivity|]. split; [reflexivity|].
  rewrite (json_str_unclosed_block "" (nl ++ Scenario.a_is_1) [] eq_refl eq_refl).
  vm_compute. reflexivity.
Defined.

(** X14. A reply without a fence is the candidate as it stands: it is not
    stripped. *)
Theorem json_str_without_fence (response_text : string) (tr : list event) :
  str_in "```" response_text = false ->
  json_str response_text tr = (Returned response_text, tr).
Proof.
  intros H. unfold json_str.
  destruct (str_in "```json" response_text) eqn:Htag.
  - change "```json" with ("```" ++ "json") in Htag.
    apply str_in_weaken in Htag. congruence.
  - rewrite H. reflexivity.
Qed.

(** A reply with white space around the object. *)
Lemma json_str_without_fence_run :
  str_in "```" (" " ++ Scenario.a_is_1 ++ nl) = false /\
  json_str (" " ++ Scenario.a_is_1 ++ nl) [] =
    (Returned (" " ++ Scenario.a_is_1 ++ nl), []).
Proof.
  split; [reflexivity|].
  apply (json_str_without_fence (" " ++ Scenario.a_is_1 ++ nl) []). reflexivity.
Defined.


(** ** Texts that can be printed *)

Lemma is_ascii_app (a b : string) : is_ascii (a ++ b) = is_ascii a && is_ascii b.
Proof.
  induction a as [|c a IH]; cbn [append is_ascii]; [reflexivity|].
  rewrite IH. apply andb_assoc.
Qed.

Lemma surrogate_bytes_ascii_l (a b : ascii) :
  (nat_of_ascii a <? 128)%nat = true -> surrogate_bytes a b = false.
Proof.
  intros H. apply Nat.ltb_lt in H. unfold surrogate_bytes.
  destruct (Nat.eqb_spec (nat_of_ascii a) 237); [lia | reflexivity].
Qed.

Lemma surrogate_bytes_ascii_r (a b : ascii) :
  (nat_of_ascii b <? 128)%nat = true -> surrogate_bytes a b = false.
Proof.
  intros H. apply Nat.ltb_lt in H. unfold surrogate_bytes.
  destruct (Nat.leb_spec 160 (nat_of_ascii b)); [lia|].
  now rewrite andb_false_r.
Qed.

Lemma has_surrogate_cons (a b : ascii) (t : string) :
  has_surrogate (String a (String b t)) =
    surrogate_bytes a b || has_surrogate (String b t).
Proof. reflexivity. Qed.

(** An ASCII text before [b] adds no surrogate. *)
Lemma has_surrogate_app_ascii (a b : string) :
  is_ascii a = true -> has_surrogate (a ++ b) = has_surrogate b.
Proof.
  induction a as [|c a IH]; intros H; [reflexivity|].
  cbn [is_ascii] in H. apply andb_true_iff in H as [Hc Ha].
  specialize (IH Ha). cbn [append].
  destruct (a ++ b) as [|d t] eqn:E.
  - rewrite <- IH. destruct b; reflexivity.
  - rewrite has_surrogate_cons, (surrogate_bytes_ascii_l _ _ Hc). exact IH.
Qed.

(** Nor does a text that starts with an ASCII character join with what
    comes before it. *)
Lemma has_surrogate_app_head (a : string) (c : ascii) (b : string) :
  (nat_of_ascii c <? 128)%nat = true ->
  has_surrogate (a ++ String c b) = has_surrogate a || has_surrogate (String c b).
Proof.
  intros Hc. induction a as [|x a IH]; [reflexivity|].
  cbn [append]. destruct a as [|y a].
  - cbn [append]. rewrite has_surrogate_cons, (surrogate_bytes_ascii_r _ _ Hc).
    reflexivity.
  - cbn [append] in *. rewrite !has_surrogate_cons, IH. apply orb_assoc.
Qed.

Lemma has_surrogate_ascii (s : string) : is_ascii s = true -> has_surrogate s = false.
Proof.
  intros H. rewrite <- (append_empty_r s). now rewrite has_surrogate_app_ascii.
Qed.

(** Two texts with an ASCII separator between them. *)
Lemma has_surrogate_sep (a sep b : string) :
  is_ascii sep = true -> sep <> "" ->
  has_surrogate (a ++ sep ++ b) = has_surrogate a || has_surrogate b.
Proof.
  intros Hs Hne. destruct sep as [|c sep]; [now elim Hne|].
  cbn [is_ascii] in Hs. apply andb_true_iff in Hs as [Hc Hs].
  change (String c sep ++ b) with (String c (sep ++ b)).
  rewrite (has_surrogate_app_head a c _ Hc).
  change (String c (sep ++ b)) with (String c sep ++ b).
  rewrite has_surrogate_app_ascii; [reflexivity|].
  cbn [is_ascii]. now rewrite Hc, Hs.
Qed.

(** An ASCII text after [a] adds no surrogate either. *)
Lemma has_surrogate_app_ascii_r (a b : string) :
  is_ascii b = true -> has_surrogate (a ++ b) = has_surrogate a.
Proof.
  intros H. destruct b as [|c b]; [now rewrite append_empty_r|].
  pose proof H as H'. cbn [is_ascii] in H'. apply andb_true_iff in H' as [Hc _].
  rewrite (has_surrogate_app_head a c b Hc), (has_surrogate_ascii _ H).
  apply orb_false_r.
Qed.

Lemma first_surrogate_none (s : string) (idx : nat) :
  Codec.first_surrogate idx s = None <-> has_surrogate s = false.
Proof.
  revert idx. induction s as [|a t IH]; intros idx; [now split|].
  destruct t as [|b t]; [now split|].
  rewrite has_surrogate_cons. cbn [Codec.first_surrogate].
  destruct (surrogate_bytes a b); cbn [orb]; [now split|].
  destruct (is_continuation a); apply IH.
Qed.

Lemma encode_fault_none (text : string) :
  Codec.encode_fault text = None <-> has_surrogate text = false.
Proof.
  unfold Codec.encode_fault. rewrite <- (first_surrogate_none text 0).
  destruct (Codec.first_surrogate 0 text) as [[idx from]|]; split; congruence.
Qed.

Lemma encode_fault_ascii (text : string) :
  is_ascii text = true -> Codec.encode_fault text = None.
Proof. intros H. now apply encode_fault_none, has_surrogate_ascii. Qed.

Lemma print_ok (text : string) (tr : list event) :
  has_surrogate text = false -> print text tr = (Returned tt, tr).
Proof. intros H. unfold print. now rewrite (proj2 (encode_fault_none text) H). Qed.

Lemma print_eq (text : string) (tr : list event) :
  print text tr =
    match Codec.encode_fault text with
    | Some e => (Raised e, tr)
    | None => (Returned tt, tr)
    end.
Proof. unfold print. destruct (Codec.encode_fault text); reflexivity. Qed.

(** *** The texts of the exceptions *)

Lemma digits_ascii (d : Decimal.uint) : is_ascii (NilEmpty.string_of_uint d) = true.
Proof. induction d; simpl; auto. Qed.

Lemma str_of_nat_ascii (n : nat) : is_ascii (str_of_nat n) = true.
Proof.
  unfold str_of_nat, NilZero.string_of_uint.
  destruct (Nat.to_uint n); try apply digits_ascii; reflexivity.
Qed.

Lemma str_of_Z_ascii (z : Z) : is_ascii (str_of_Z z) = true.
Proof.
  unfold str_of_Z, NilZero.string_of_int.
  destruct (Z.to_int z) as [d|d]; unfold NilZero.string_of_uint;
    destruct d; try apply digits_ascii; try reflexivity;
    cbn [is_ascii]; apply digits_ascii.
Qed.

Lemma hex_digit_cases (n : N) :
  (n mod 16 = 0 \/ n mod 16 = 1 \/ n mod 16 = 2 \/ n mod 16 = 3 \/ n mod 16 = 4 \/
   n mod 16 = 5 \/ n mod 16 = 6 \/ n mod 16 = 7 \/ n mod 16 = 8 \/ n mod 16 = 9 \/
   n mod 16 = 10 \/ n mod 16 = 11 \/ n mod 16 = 12 \/ n mod 16 = 13 \/
   n mod 16 = 14 \/ n mod 16 = 15)%N.
Proof.
  pose proof (N.mod_lt n 16 ltac:(discriminate)) as H.
  remember (n mod 16)%N as m eqn:Hm. clear Hm. lia.
Qed.

Lemma hex_digit_plain (n : N) :
  is_ascii (String (Codec.hex_digit (n mod 16)) "") = true /\
  has_char "P" (String (Codec.hex_digit (n mod 16)) "") = false.
Proof.
  destruct (hex_digit_cases n) as
    [H|[H|[H|[H|[H|[H|[H|[H|[H|[H|[H|[H|[H|[H|[H|H]]]]]]]]]]]]]]];
    rewrite H; split; reflexivity.
Qed.

Lemma hex4_plain (n : N) :
  is_ascii (Codec.hex4 n) = true /\ has_char "P" (Codec.hex4 n) = false.
Proof.
  unfold Codec.hex4.
  destruct (hex_digit_plain (n / 4096)) as [A1 P1].
  destruct (hex_digit_plain (n / 256)) as [A2 P2].
  destruct (hex_digit_plain (n / 16)) as [A3 P3].
  destruct (hex_digit_plain n) as [A4 P4].
  cbn [is_ascii has_char] in *.
  rewrite andb_true_r in A1, A2, A3, A4. rewrite orb_false_r in P1, P2, P3, P4.
  now rewrite A1, A2, A3, A4, P1, P2, P3, P4.
Qed.

(** The error of a failed write is a [ValueError] with an ASCII text that
    does not mention an API key. *)
Lemma encode_fault_text (text : string) (e : exn) :
  Codec.encode_fault text = Some e ->
  is_ValueError e = true /\
  is_ascii (exn_msg e) = true /\
  str_in "API key" (exn_msg e) = false.
Proof.
  unfold Codec.encode_fault.
  destruct (Codec.first_surrogate 0 text) as [[idx from]|]; [|discriminate].
  intros [= <-]. split; [reflexivity|]. cbn [exn_msg].
  destruct (hex4_plain (Codec.code_point from)) as [Ha Hp].
  assert (H : is_ascii (Codec.describe idx (Codec.surrogate_run from)
                          (Codec.code_point from)) = true /\
              has_char "P" (Codec.describe idx (Codec.surrogate_run from)
                              (Codec.code_point from)) = false).
  { unfold Codec.describe.
    destruct (Codec.surrogate_run from) as [|[|k]];
      rewrite !is_ascii_app, !has_char_app, ?Ha, ?Hp, ?str_of_nat_ascii,
        ?str_of_nat_no_P; split; reflexivity. }
  destruct H as [H1 H2]. split; [exact H1|].
  destruct (str_in "API key" _) eqn:Hin; [|reflexivity].
  apply str_in_api_key_has_P in Hin. congruence.
Qed.

Lemma no_attribute_ascii (v : json) (name : string) :
  is_ascii name = true -> is_ascii (exn_msg (no_attribute v name)) = true.
Proof.
  intros H. unfold no_attribute. cbn [exn_msg].
  rewrite !is_ascii_app, H. destruct v; reflexivity.
Qed.

Lemma describe_ascii (f : Json.fault) (doc : string) (away : nat) :
  is_ascii (Json.describe f doc away) = true.
Proof.
  unfold Json.describe.
  destruct (Json.locate 1 1 0 _) as [[line col] idx].
  rewrite !is_ascii_app, !str_of_nat_ascii.
  destruct f; reflexivity.
Qed.

Lemma loads_fault_ascii (doc : string) (e : exn) :
  Json.loads doc = inr e -> is_ascii (exn_msg e) = true.
Proof.
  unfold Json.loads. intros H.
  destruct (prefix Json.BOM doc).
  - injection H as <-. apply describe_ascii.
  - destruct (Json.parse _ _ _) as [v|[f away]]; [discriminate|].
    injection H as <-. apply describe_ascii.
Qed.

(** A value that is not a text is rendered without a surrogate. *)
Lemma str_encodable (rt : PyRuntime) (v : json) :
  Format.is_str v = false -> has_surrogate (Py.str v) = false.
Proof.
  destruct v; intros H; try discriminate; cbn [Py.str];
    try apply repr_value_encodable; try reflexivity.
  - destruct b; reflexivity.
  - apply has_surrogate_ascii, str_of_Z_ascii.
Qed.

(** *** The lines the service prints *)

Lemma nl_ascii : is_ascii nl = true /\ nl <> "".
Proof. split; [reflexivity | discriminate]. Qed.

(** The line of the five values can be printed exactly when each of them
    can. *)
Lemma params_line_surrogate (rt : PyRuntime)
    (subject budget skill_level time_availability learning_style : json) :
  has_surrogate
    (params_line subject budget skill_level time_availability learning_style) =
  negb (params_encodable subject budget skill_level time_availability learning_style).
Proof.
  unfold params_line, params_encodable, encodable.
  rewrite has_surrogate_app_ascii by reflexivity.
  rewrite !(has_surrogate_sep _ ", ") by (reflexivity || discriminate).
  rewrite !negb_andb, !negb_involutive, !orb_assoc. reflexivity.
Qed.

(** Rewrites the test of a text made of ASCII pieces and of values that
    end their line. *)
Ltac peel_surrogate :=
  repeat first
    [ rewrite has_surrogate_app_ascii by (vm_compute; reflexivity)
    | rewrite (has_surrogate_sep _ nl) by (reflexivity || discriminate) ].

(** So can the prompt. *)
Lemma prompt_surrogate (rt : PyRuntime)
    (subject budget skill_level time_availability learning_style : json) :
  has_surrogate (prompt subject budget skill_level time_availability learning_style) =
  negb (params_encodable subject budget skill_level time_availability learning_style).
Proof.
  unfold prompt, params_encodable, encodable.
  peel_surrogate.
  rewrite (has_surrogate_ascii "        ") by reflexivity.
  rewrite !negb_andb, !negb_involutive, !orb_assoc, !orb_false_r. reflexivity.
Qed.

Lemma sliced_line_surrogate (label text : string) :
  is_ascii label = true ->
  has_surrogate (label ++ text ++ "...") = has_surrogate text.
Proof.
  intros H. rewrite has_surrogate_app_ascii by exact H.
  apply has_surrogate_app_ascii_r. reflexivity.
Qed.

Lemma handler_line_surrogate (e : exn) :
  has_surrogate (handler_line e) = has_surrogate (exn_msg e).
Proof.
  unfold handler_line. destruct (is_ValueError e);
    apply has_surrogate_app_ascii; reflexivity.
Qed.

(** ** The resolver and the handler, step by step *)

Lemma get_course_recommendations_eq (rt : PyRuntime) (env : Env)
    (subject budget skill_level time_availability learning_style : json)
    (tr : list event) :
  get_course_recommendations env subject budget skill_level time_availability
      learning_style tr =
    match ask_model env subject budget skill_level time_availability learning_style
            (tr ++ [Resolver_called subject budget skill_level time_availability
                      learning_style])%list with
    | (Returned r, tr') => (Returned r, tr')
    | (Raised e, tr') => on_exception subject skill_level e tr'
    end.
Proof. reflexivity. Qed.

(** Without a credential the [try] raises before anything is printed and
    before the model is called. *)
Lemma ask_model_no_credential (rt : PyRuntime) (env : Env)
    (subject budget skill_level time_availability learning_style : json)
    (tr : list event) :
  not_set (GOOGLE_API_KEY env) = true ->
  ask_model env subject budget skill_level time_availability learning_style tr =
    (Raised (Exn ValueError Scenario.missing_key_message), tr).
Proof.
  intros H. unfold ask_model, initialize_gemini, bind. rewrite H. reflexivity.
Qed.

Lemma json_str_candidate (response_text : string) (tr : list event) :
  json_str response_text tr = (Returned (candidate response_text), tr).
Proof.
  destruct (json_str_returns response_text) as (c & Hc).
  unfold candidate. rewrite (Hc []). apply Hc.
Qed.

(** What becomes of a reply: the two lines are printed, the second one for
    the extracted text, and the decoder runs. *)
Lemma reply_outcome_eq (rt : PyRuntime) (text : string) :
  reply_outcome text =
    match Codec.encode_fault ("Raw response: " ++ first_chars 500 text ++ "...") with
    | Some x => Raised x
    | None =>
        match Codec.encode_fault
                ("Extracted JSON string: " ++ first_chars 500 (candidate text) ++ "...")
        with
        | Some x => Raised x
        | None =>
            match decode (candidate text) with
            | inl v => Returned v
            | inr e => Raised e
            end
        end
    end.
Proof.
  unfold reply_outcome, read_reply, bind. rewrite print_eq.
  destruct (Codec.encode_fault ("Raw response: " ++ _)); [reflexivity|].
  rewrite json_str_candidate, print_eq.
  destruct (Codec.encode_fault ("Extracted JSON string: " ++ _)); [reflexivity|].
  destruct (decode (candidate text)); reflexivity.
Qed.

Lemma read_reply_eq (rt : PyRuntime) (text : string) (tr : list event) :
  read_reply text tr = (reply_outcome text, tr).
Proof.
  unfold reply_outcome, read_reply, bind. rewrite !print_eq.
  destruct (Codec.encode_fault ("Raw response: " ++ _)); [reflexivity|].
  rewrite !json_str_candidate, !print_eq.
  destruct (Codec.encode_fault ("Extracted JSON string: " ++ _)); [reflexivity|].
  destruct (decode (candidate text)); reflexivity.
Qed.

(** With a credential the [try] prints the prompt, calls the model once and
    reads the reply. *)
Lemma ask_model_credential (rt : PyRuntime) (env : Env)
    (subject budget skill_level time_availability learning_style : json)
    (tr : list event) :
  not_set (GOOGLE_API_KEY env) = false ->
  let p := prompt subject budget skill_level time_availability learning_style in
  ask_model env subject budget skill_level time_availability learning_style tr =
    match Codec.encode_fault p with
    | Some x => (Raised x, tr)
    | None =>
        match generate_content env p with
        | inr e => (Raised e, (tr ++ [Model_called p])%list)
        | inl text => (reply_outcome text, (tr ++ [Model_called p])%list)
        end
    end.
Proof.
  intros H p. unfold ask_model, initialize_gemini, bind. rewrite H.
  unfold ret at 1. fold p.
  rewrite (print_ok "Sending prompt to Gemini:") by reflexivity.
  rewrite print_eq. destruct (Codec.encode_fault p); [reflexivity|].
  unfold emit.
  destruct (generate_content env p) as [text|e]; cbn [lift]; [|reflexivity].
  unfold ret at 1.
  rewrite (print_ok "Received response from Gemini") by reflexivity.
  apply read_reply_eq.
Qed.

(** A fault of the decoder, interrupted or not, has an ASCII text and never
    leads to the fallback. *)
Lemma decode_fault (rt : PyRuntime) (doc : string) (e : exn) :
  decode doc = inr e ->
  is_ascii (exn_msg e) = true /\ names_api_key e = false.
Proof.
  unfold decode, names_api_key.
  destruct (interrupts doc) as [x|] eqn:Hx.
  - intros [= <-]. destruct (interrupts_text doc x Hx) as [Ha Hin].
    split; [exact Ha|]. rewrite Hin. apply andb_false_r.
  - intros H. split; [exact (loads_fault_ascii _ _ H)|].
    destruct (loads_fault _ _ H) as [_ ->]. apply andb_false_r.
Qed.

(** So has every fault met while a reply is read. *)
Lemma reply_fault (rt : PyRuntime) (text : string) (e : exn) :
  reply_outcome text = Raised e ->
  is_ascii (exn_msg e) = true /\ names_api_key e = false.
Proof.
  rewrite reply_outcome_eq.
  assert (Hcodec : forall t x, Codec.encode_fault t = Some x ->
            is_ascii (exn_msg x) = true /\ names_api_key x = false).
  { intros t x Hx. destruct (encode_fault_text t x Hx) as (_ & Ha & Hin).
    split; [exact Ha|]. unfold names_api_key. rewrite Hin. apply andb_false_r. }
  destruct (Codec.encode_fault ("Raw response: " ++ _)) as [x|] eqn:H1.
  { intros [= <-]. eapply Hcodec, H1. }
  destruct (Codec.encode_fault ("Extracted JSON string: " ++ _)) as [x|] eqn:H2.
  { intros [= <-]. eapply Hcodec, H2. }
  destruct (decode (candidate text)) as [v|x] eqn:H3; [discriminate|].
  intros [= <-]. eapply decode_fault, H3.
Qed.

(** The [except] clauses: the line is printed first, then the text decides
    between the fallback and an error object. *)
Lemma on_exception_eq (rt : PyRuntime) (subject skill_level : json) (e : exn)
    (tr : list event) :
  on_exception subject skill_level e tr =
    match Codec.encode_fault (handler_line e) with
    | Some x => (Raised x, tr)
    | None =>
        if names_api_key e then get_fallback_data subject skill_level tr
        else (Returned (error_body (diagnostic e)), tr)
    end.
Proof.
  unfold on_exception, handler_line, names_api_key, diagnostic, bind.
  destruct (is_ValueError e); rewrite print_eq;
    destruct (Codec.encode_fault _); try reflexivity.
  cbn [andb]. destruct (str_in "API key" (exn_msg e)); reflexivity.
Qed.

(** An exception with an ASCII text that does not name an API key is
    reported in an error object. *)
Lemma on_exception_plain (rt : PyRuntime) (subject skill_level : json) (e : exn)
    (tr : list event) :
  is_ascii (exn_msg e) = true ->
  names_api_key e = false ->
  on_exception subject skill_level e tr = (Returned (error_body (diagnostic e)), tr).
Proof.
  intros Ha Hn. rewrite on_exception_eq, Hn.
  rewrite (proj2 (encode_fault_none _)); [reflexivity|].
  rewrite handler_line_surrogate. now apply has_surrogate_ascii.
Qed.

(** With a string as skill level the fallback returns its payload. *)
Lemma get_fallback_data_str (rt : PyRuntime) (subject : json) (k : string)
    (tr : list event) :
  exists payload,
    canned subject (JStr k) = Some payload /\
    Format.is_str payload = false /\
    get_fallback_data subject (JStr k) tr =
      (Returned payload, (tr ++ [Fallback_called subject (JStr k)])%list).
Proof. eexists. repeat split. Qed.

(** With anything else it raises, for want of [lower]. *)
Lemma get_fallback_data_other (rt : PyRuntime) (subject skill_level : json)
    (tr : list event) :
  Format.is_str skill_level = false ->
  canned subject skill_level = None /\
  get_fallback_data subject skill_level tr =
    (Raised (no_attribute skill_level "lower"),
     (tr ++ [Fallback_called subject skill_level])%list).
Proof.
  intros H. destruct skill_level; try discriminate; split; reflexivity.
Qed.

(** Every path of the resolver. *)
Lemma resolver_cases (rt : PyRuntime) (env : Env)
    (subject budget skill_level time_availability learning_style : json)
    (tr : list event) :
  let p := prompt subject budget skill_level time_availability learning_style in
  let tr1 :=
    (tr ++ [Resolver_called subject budget skill_level time_availability
              learning_style])%list in
  let tr2 := (tr1 ++ [Model_called p])%list in
  get_course_recommendations env subject budget skill_level time_availability
      learning_style tr =
    if not_set (GOOGLE_API_KEY env)
    then (Returned (error_body Scenario.missing_key_message), tr1)
    else
      match Codec.encode_fault p with
      | Some x => (Returned (error_body (exn_msg x)), tr1)
      | None =>
          match generate_content env p with
          | inl text =>
              match reply_outcome text with
              | Returned v => (Returned v, tr2)
              | Raised e => (Returned (error_body (diagnostic e)), tr2)
              end
          | inr e =>
              match Codec.encode_fault (handler_line e) with
              | Some x => (Raised x, tr2)
              | None =>
                  if names_api_key e then get_fallback_data subject skill_level tr2
                  else (Returned (error_body (diagnostic e)), tr2)
              end
          end
      end.
Proof.
  intros p tr1 tr2. rewrite get_course_recommendations_eq. fold tr1.
  destruct (not_set (GOOGLE_API_KEY env)) eqn:Hkey.
  - rewrite ask_model_no_credential by exact Hkey.
    apply on_exception_plain; reflexivity.
  - rewrite ask_model_credential by exact Hkey. cbv zeta. fold p tr2.
    destruct (Codec.encode_fault p) as [x|] eqn:Hp.
    + destruct (encode_fault_text _ _ Hp) as (Hv & Ha & Hin).
      rewrite on_exception_plain;
        [| exact Ha | unfold names_api_key; rewrite Hin; apply andb_false_r].
      unfold diagnostic. rewrite Hv. reflexivity.
    + destruct (generate_content env p) as [text|e].
      * destruct (reply_outcome text) as [v|e] eqn:Hr; [reflexivity|].
        destruct (reply_fault _ _ _ Hr) as [Ha Hn].
        now apply on_exception_plain.
      * apply on_exception_eq.
Qed.

(** The [except] clause of the handler, for an exception with an ASCII
    text. *)
Lemma handler_except (e : exn) (tr : list event) :
  is_ascii (exn_msg e) = true ->
  bind (print ("Error in recommendations route: " ++ exn_msg e))
    (fun _ => ret (Response (JDict [("error", JStr ("Server error: " ++ exn_msg e))]) 500))
    tr
  = (Returned (server_error e), tr).
Proof.
  intros H. unfold bind. rewrite print_ok; [reflexivity|].
  rewrite has_surrogate_app_ascii by reflexivity. now apply has_surrogate_ascii.
Qed.

(** The handler on a body that is not an object. *)
Lemma post_other (rt : PyRuntime) (env : Env) (data : json) :
  Py.is_dict data = false ->
  post env data =
    (Returned
       (server_error
          match Codec.encode_fault ("Received data: " ++ Py.str data) with
          | Some x => x
          | None => no_attribute data "get"
          end),
     []).
Proof.
  intros H. unfold post, recommendations, try_except.
  unfold bind at 1. rewrite print_eq.
  destruct (Codec.encode_fault ("Received data: " ++ Py.str data)) as [x|] eqn:Hx.
  - destruct (encode_fault_text _ _ Hx) as (_ & Ha & _). now apply handler_except.
  - assert (Hget : dict_get data "subject" (JStr "") [] = (Raised (no_attribute data "get"), []))
      by (destruct data; try reflexivity; discriminate).
    unfold bind at 1. rewrite Hget.
    apply handler_except, no_attribute_ascii. reflexivity.
Qed.

(** The answer with status 200. *)
Lemma dict_printed (rt : PyRuntime) (label : string) (v : json) :
  is_ascii label = true -> Format.is_str v = false ->
  Codec.encode_fault (label ++ Py.str v) = None.
Proof.
  intros Hl Hv. apply encode_fault_none.
  rewrite has_surrogate_app_ascii by exact Hl. now apply str_encodable.
Qed.

(** Every path of the handler through a dictionary. *)
Lemma post_dict_cases (rt : PyRuntime) (env : Env) (pairs : list (string * json)) :
  let subject := Py.get "subject" (JStr "") pairs in
  let budget := Py.get "budget" (JStr "") pairs in
  let skill_level := Py.get "skillLevel" (JStr "") pairs in
  let time_availability := Py.get "timeAvailability" (JStr "") pairs in
  let learning_style := Py.get "learningStyle" (JStr "") pairs in
  let p := prompt subject budget skill_level time_availability learning_style in
  let called :=
    Resolver_called subject budget skill_level time_availability learning_style in
  let ok (v : json) (tr : list event) := (Returned (Response v 200), tr) in
  post env (JDict pairs) =
    if negb (Py.truthy subject)
    then (Returned (Response (error_body "Subject is required") 400), [])
    else
      match Codec.encode_fault
              (params_line subject budget skill_level time_availability learning_style)
      with
      | Some x => (Returned (server_error x), [])
      | None =>
          if not_set (GOOGLE_API_KEY env)
          then ok (error_body Scenario.missing_key_message) [called]
          else
            match generate_content env p with
            | inl text =>
                match reply_outcome text with
                | Returned v =>
                    match Codec.encode_fault ("API response: " ++ Py.str v) with
                    | Some x => (Returned (server_error x), [called; Model_called p])
                    | None => ok v [called; Model_called p]
                    end
                | Raised e => ok (error_body (diagnostic e)) [called; Model_called p]
                end
            | inr e =>
                match Codec.encode_fault (handler_line e) with
                | Some x => (Returned (server_error x), [called; Model_called p])
                | None =>
                    if names_api_key e
                    then
                      match canned subject skill_level with
                      | Some payload =>
                          ok payload
                            [called; Model_called p;
                             Fallback_called subject skill_level]
                      | None =>
                          (Returned (server_error (no_attribute skill_level "lower")),
                           [called; Model_called p;
                            Fallback_called subject skill_level])
                      end
                    else ok (error_body (diagnostic e)) [called; Model_called p]
                end
            end
      end.
Proof.
  intros subject budget skill_level time_availability learning_style p called ok.
  unfold post, recommendations, try_except.
  unfold bind at 1.
  rewrite print_ok
    by (rewrite has_surrogate_app_ascii by reflexivity; now apply str_encodable).
  unfold bind at 1 2 3 4 5, dict_get. unfold ret at 1 2 3 4 5.
  fold subject budget skill_level time_availability learning_style.
  destruct (negb (Py.truthy subject)); [reflexivity|].
  unfold bind at 1. rewrite print_eq.
  fold (params_line subject budget skill_level time_availability learning_style).
  destruct (Codec.encode_fault (params_line _ _ _ _ _)) as [x|] eqn:Hline.
  { destruct (encode_fault_text _ _ Hline) as (_ & Ha & _). now apply handler_except. }
  assert (Hp : Codec.encode_fault p = None).
  { apply encode_fault_none. unfold p. rewrite prompt_surrogate.
    apply encode_fault_none in Hline. rewrite params_line_surrogate in Hline.
    exact Hline. }
  unfold bind at 1. rewrite resolver_cases. cbv zeta. fold p called. cbn [app].
  assert (Hok : forall v tr,
            Format.is_str v = false ->
            (let (o, tr') := @bind unit response (print ("API response: " ++ Py.str v))
                               (fun _ => ret (jsonify v)) tr in
             match o with
             | Returned a => (Returned a, tr')
             | Raised e =>
                 bind (print ("Error in recommendations route: " ++ exn_msg e))
                   (fun _ =>
                      ret (Response (JDict [("error", JStr ("Server error: " ++ exn_msg e))])
                             500)) tr'
             end) = ok v tr).
  { intros v tr Hv. unfold bind at 1.
    rewrite print_ok; [reflexivity|].
    rewrite has_surrogate_app_ascii by reflexivity. now apply str_encodable. }
  destruct (not_set (GOOGLE_API_KEY env)); [now apply Hok|].
  rewrite Hp.
  destruct (generate_content env p) as [text|e].
  - destruct (reply_outcome text) as [v|e]; [|now apply Hok].
    unfold bind at 1. rewrite print_eq.
    destruct (Codec.encode_fault ("API response: " ++ Py.str v)) as [x|] eqn:Hx;
      [|reflexivity].
    destruct (encode_fault_text _ _ Hx) as (_ & Ha & _). now apply handler_except.
  - destruct (Codec.encode_fault (handler_line e)) as [x|] eqn:Hx.
    { destruct (encode_fault_text _ _ Hx) as (_ & Ha & _). now apply handler_except. }
    destruct (names_api_key e); [|now apply Hok].
    destruct (Format.is_str skill_level) eqn:Hstr.
    + clearbody subject skill_level. destruct skill_level; try discriminate.
      destruct (get_fallback_data_str rt subject s [called; Model_called p])
        as (payload & Hc & Hs & Hrun).
      rewrite Hc, Hrun. now apply Hok.
    + destruct (get_fallback_data_other rt subject skill_level
                  [called; Model_called p] Hstr) as [Hc Hrun].
      rewrite Hc, Hrun. apply handler_except, no_attribute_ascii. reflexivity.
Qed.

(** Splits the cases of a goal that branches on tests and results. *)
Ltac split_cases :=
  repeat match goal with
    | |- context [if ?b then _ else _] => destruct b eqn:?
    | |- context [match ?x with _ => _ end] => destruct x eqn:?
    end.

(** ** Validation at the endpoint *)

(** C6. A body whose "subject" is missing or bound to the empty string is
    answered with status 400 and [{"error": "Subject is required"}]; the
    trace stays empty, so neither the resolver nor the model is called. *)
Theorem subject_is_required (rt : PyRuntime) (env : Env) (pairs : list (string * json)) :
  Py.lookup "subject" pairs = None \/ Py.lookup "subject" pairs = Some (JStr "") ->
  post env (JDict pairs) =
    (Returned (Response (JDict [("error", JStr "Subject is required")]) 400), []).
Proof.
  intros H. rewrite post_dict_cases. cbv zeta. unfold Py.get.
  destruct H as [-> | ->]; reflexivity.
Qed.

(** The empty body [{}]. *)
Lemma subject_is_required_empty_body :
  Py.lookup "subject" [] = None /\
  @post Scenario.runtime Scenario.no_credential (JDict []) =
    (Returned (Response (JDict [("error", JStr "Subject is required")]) 400), []).
Proof.
  split; [reflexivity|].
  apply (subject_is_required Scenario.runtime Scenario.no_credential []).
  left. reflexivity.
Defined.

(** C9. A body that is JSON but not an object (null, a number, a string, a
    list) never gets the 400 of the validation: an exception is raised
    inside the handler, nothing is called, and the answer is status 500
    with [{"error": "Server error: <message>"}].  The message is that of
    the failed field access, ['<type>' object has no attribute 'get'],
    unless the body is a text with a lone surrogate, which the line printed
    before the access cannot encode: the message is then that of the
    failed write. *)
Theorem non_object_body_is_server_error (rt : PyRuntime) (env : Env) (data : json) :
  Py.is_dict data = false ->
  exists message,
    post env data =
      (Returned (Response (JDict [("error", JStr ("Server error: " ++ message))]) 500),
       []) /\
    (has_surrogate (Py.str data) = false ->
     message = "'" ++ Py.type_name data ++ "' object has no attribute 'get'") /\
    (forall e, Codec.encode_fault ("Received data: " ++ Py.str data) = Some e ->
     message = exn_msg e /\ Format.is_str data = true) /\
    (Format.is_str data = false -> has_surrogate (Py.str data) = false).
Proof.
  intros H. rewrite (post_other rt env data H).
  assert (Hstr : Format.is_str data = false -> has_surrogate (Py.str data) = false)
    by apply str_encodable.
  destruct (Codec.encode_fault ("Received data: " ++ Py.str data)) as [x|] eqn:Hx.
  - exists (exn_msg x). split; [reflexivity|].
    assert (Hs : has_surrogate (Py.str data) = true).
    { destruct (has_surrogate (Py.str data)) eqn:Hs; [reflexivity|].
      assert (Codec.encode_fault ("Received data: " ++ Py.str data) = None).
      { apply encode_fault_none. now rewrite has_surrogate_app_ascii. }
      congruence. }
    repeat split.
    + congruence.
    + now injection H0 as <-.
    + destruct (Format.is_str data) eqn:Hd; [reflexivity|].
      rewrite (Hstr eq_refl) in Hs. discriminate.
    + exact Hstr.
  - exists ("'" ++ Py.type_name data ++ "' object has no attribute 'get'").
    repeat split; auto; discriminate.
Qed.

(** The body [null]. *)
Lemma null_body_is_server_error :
  Py.is_dict JNull = false /\
  @post Scenario.runtime (Scenario.replying "{}") JNull =
    (Returned
       (Response
          (JDict [("error",
                   JStr "Server error: 'NoneType' object has no attribute 'get'")])
          500),
     []).
Proof.
  split; [reflexivity|].
  destruct (non_object_body_is_server_error Scenario.runtime (Scenario.replying "{}")
              JNull eq_refl) as (message & Hpost & Hmsg & _).
  rewrite Hpost, (Hmsg eq_refl). reflexivity.
Defined.

(** A body that is a text with a lone surrogate. *)
Example surrogate_body_is_server_error :
  @post Scenario.runtime (Scenario.replying "{}") (JStr (utf8_encode 55296)) =
    (Returned
       (Response
          (JDict [("error",
                   JStr ("Server error: 'utf-8' codec can't encode character '\ud800' "
                           ++ "in position 15: surrogates not allowed"))])
          500),
     []).
Proof. vm_compute. reflexivity. Qed.

(** ** The missing credential *)

(** C1. Without a credential the resolver does not reach the canned
    payload: the text of the [ValueError] that [initialize_gemini] raises
    does not contain "API key", so the resolver returns it in an error
    object; neither the model nor [get_fallback_data] is called. *)
Theorem missing_credential_surfaces_error (rt : PyRuntime) (env : Env)
    (subject budget skill_level time_availability learning_style : json)
    (tr : list event) :
  not_set (GOOGLE_API_KEY env) = true ->
  get_course_recommendations env subject budget skill_level time_availability
      learning_style tr =
    (Returned (JDict [("error", JStr Scenario.missing_key_message)]),
     (tr ++ [Resolver_called subject budget skill_level time_availability
               learning_style])%list).
Proof.
  intros H. rewrite resolver_cases. cbv zeta. rewrite H. reflexivity.
Qed.

Lemma missing_credential_surfaces_error_run :
  not_set (GOOGLE_API_KEY Scenario.no_credential) = true /\
  @get_course_recommendations Scenario.runtime Scenario.no_credential
      (JStr "Python") (JStr "") (JStr "") (JStr "") (JStr "") [] =
    (Returned (JDict [("error", JStr Scenario.missing_key_message)]),
     [Resolver_called (JStr "Python") (JStr "") (JStr "") (JStr "") (JStr "")]).
Proof.
  split; [reflexivity|].
  apply (missing_credential_surfaces_error Scenario.runtime Scenario.no_credential
           (JStr "Python") (JStr "") (JStr "") (JStr "") (JStr "") []).
  reflexivity.
Defined.

(** C2. The request [{"subject": "Python", "skillLevel": "Beginner"}]
    without a credential is answered with status 200 and the error object of
    the missing credential, not with the three canned courses. *)
Theorem python_beginner_without_credential (rt : PyRuntime) :
  post Scenario.no_credential Scenario.python_beginner =
    (Returned (Response (JDict [("error", JStr Scenario.missing_key_message)]) 200),
     [Resolver_called (JStr "Python") (JStr "") (JStr "Beginner") (JStr "") (JStr "")]).
Proof.
  unfold Scenario.python_beginner. rewrite post_dict_cases. reflexivity.
Qed.

(** ** The canned payload *)

(** C8. For all strings [subject] and [skill_level] the fallback returns,
    whatever the trace so far, one and the same payload: three courses and
    three roadmap stages made of fixed texts around the two arguments, the
    skill level being lowered by [str.lower] in the first description. *)
Theorem fallback_is_deterministic (rt : PyRuntime) (subject skill_level : string) :
  exists courses stages tips,
    List.length courses = 3 /\
    List.length stages = 3 /\
    map (Py.field "course_name") courses =
      [Some (JStr (subject ++ " for " ++ skill_level ++ "s"));
       Some (JStr ("Advanced " ++ subject));
       Some (JStr (subject ++ " Bootcamp"))] /\
    map (Py.field "description") courses =
      [Some (JStr ("A comprehensive introduction to " ++ subject ++ " designed for "
                     ++ unicode_lower skill_level ++ " learners."));
       Some (JStr ("Take your " ++ subject
                     ++ " skills to the next level with practical projects."));
       Some (JStr ("Intensive " ++ subject ++ " training with industry experts."))] /\
    map (Py.field "description") stages =
      [Some (JStr ("Learn the basic concepts and principles of " ++ subject));
       Some (JStr ("Apply your knowledge of " ++ subject ++ " to real-world problems"));
       Some (JStr ("Explore specialized areas within " ++ subject))] /\
    forall tr : list event,
      get_fallback_data (JStr subject) (JStr skill_level) tr =
        (Returned (JDict [("recommendations", JList courses);
                          ("roadmap", JList stages);
                          ("additional_tips", JStr tips)]),
         (tr ++ [Fallback_called (JStr subject) (JStr skill_level)])%list).
Proof.
  do 3 eexists. repeat apply conj; cycle 5.
  - intros tr.
    cbv [get_fallback_data Py.str str_lower bind emit ret course stage].
    reflexivity.
  - reflexivity.
  - reflexivity.
  - reflexivity.
  - reflexivity.
  - reflexivity.
Qed.

(** C10. Of the three canned courses only the first takes its
    "skill_level" from the argument; the second is "Intermediate" and the
    third "Advanced" for every pair of arguments. *)
Theorem fallback_skill_levels (rt : PyRuntime) (subject skill_level : string)
    (tr : list event) :
  exists payload tr' first second third,
    get_fallback_data (JStr subject) (JStr skill_level) tr = (Returned payload, tr') /\
    Py.field "recommendations" payload = Some (JList [first; second; third]) /\
    Py.field "skill_level" first = Some (JStr skill_level) /\
    Py.field "skill_level" second = Some (JStr "Intermediate") /\
    Py.field "skill_level" third = Some (JStr "Advanced").
Proof.
  do 5 eexists. split; [reflexivity|]. repeat split.
Qed.

(** The payload for "Python" and "Beginner", under every interpreter. *)
Example fallback_python_beginner (rt : PyRuntime) :
  exists payload first second third,
    get_fallback_data (JStr "Python") (JStr "Beginner") [] =
      (Returned payload, [Fallback_called (JStr "Python") (JStr "Beginner")]) /\
    Py.field "recommendations" payload = Some (JList [first; second; third]) /\
    Py.field "course_name" first = Some (JStr "Python for Beginners") /\
    Py.field "platform" first = Some (JStr "Coursera") /\
    Py.field "url" first = Some (JStr "https://coursera.org") /\
    Py.field "description" first =
      Some (JStr "A comprehensive introduction to Python designed for beginner learners.").
Proof.
  do 4 eexists. split; [reflexivity|]. repeat split.
  cbn. rewrite (unicode_lower_ascii "Beginner") by reflexivity. reflexivity.
Qed.

(** A skill level that is not a string has no [lower]: the fallback
    raises. *)
Example fallback_without_lower :
  @get_fallback_data Scenario.runtime (JStr "Python") (JInt 3) [] =
    (Raised (Exn AttributeError "'int' object has no attribute 'lower'"),
     [Fallback_called (JStr "Python") (JInt 3)]).
Proof. reflexivity. Qed.

(** ** Faults with a configured credential *)

(** A reply is read through when its two printed slices hold no surrogate
    and the decoder returns. *)
Lemma reply_returned (rt : PyRuntime) (text : string) (v : json) :
  reply_outcome text = Returned v ->
  decode (candidate text) = inl v /\ Json.loads (candidate text) = inl v.
Proof.
  rewrite reply_outcome_eq.
  destruct (Codec.encode_fault ("Raw response: " ++ _)); [discriminate|].
  destruct (Codec.encode_fault ("Extracted JSON string: " ++ _)); [discriminate|].
  destruct (decode (candidate text)) as [w|e] eqn:Hd; [|discriminate].
  intros [= <-]. split; [reflexivity|].
  unfold decode in Hd. destruct (interrupts (candidate text)); [discriminate | exact Hd].
Qed.

(** A reply whose two printed slices hold no surrogate fails exactly as
    the decoder does. *)
Lemma reply_decode (rt : PyRuntime) (text : string) :
  has_surrogate (first_chars 500 text) = false ->
  has_surrogate (first_chars 500 (candidate text)) = false ->
  reply_outcome text =
    match decode (candidate text) with
    | inl v => Returned v
    | inr e => Raised e
    end.
Proof.
  intros H1 H2. rewrite reply_outcome_eq.
  rewrite (proj2 (encode_fault_none _))
    by (now rewrite sliced_line_surrogate).
  rewrite (proj2 (encode_fault_none _))
    by (now rewrite sliced_line_surrogate).
  reflexivity.
Qed.

(** The canned payload has no "error" key and is not a text. *)
Lemma canned_keys (rt : PyRuntime) (subject skill_level payload : json) :
  canned subject skill_level = Some payload ->
  Py.has_key "error" payload = false /\
  Py.has_key "recommendations" payload = true /\
  Format.is_str skill_level = true.
Proof.
  unfold canned. destruct skill_level; try discriminate.
  intros [= <-]. repeat split.
Qed.

(** C3 (amended). With a credential configured, a truthy subject and five
    values that can be printed, a fault of the call to the model whose text
    can be printed is answered with status 200 and [{"error": <text>}]
    unless it is a [ValueError] whose text contains "API key", in which
    case the resolver hands over to the fallback; a fault met while the
    reply is read (a slice that cannot be printed, a text that does not
    decode, a resource limit) is always answered with status 200 and its
    text in an error object, never with the fallback; and a reply whose
    extracted text the decoder rejects is answered with the decoder's
    message. *)
Theorem faults_surface_as_errors (rt : PyRuntime) (env : Env)
    (pairs : list (string * json)) :
  let subject := Py.get "subject" (JStr "") pairs in
  let budget := Py.get "budget" (JStr "") pairs in
  let skill_level := Py.get "skillLevel" (JStr "") pairs in
  let time_availability := Py.get "timeAvailability" (JStr "") pairs in
  let learning_style := Py.get "learningStyle" (JStr "") pairs in
  let p := prompt subject budget skill_level time_availability learning_style in
  let tr := [Resolver_called subject budget skill_level time_availability learning_style;
             Model_called p] in
  not_set (GOOGLE_API_KEY env) = false ->
  Py.truthy subject = true ->
  params_encodable subject budget skill_level time_availability learning_style = true ->
  (forall e : exn,
     generate_content env p = inr e ->
     names_api_key e = false ->
     has_surrogate (exn_msg e) = false ->
     post env (JDict pairs) =
       (Returned (Response (JDict [("error", JStr (diagnostic e))]) 200), tr)) /\
  (forall (text : string) (e : exn),
     generate_content env p = inl text ->
     reply_outcome text = Raised e ->
     names_api_key e = false /\
     post env (JDict pairs) =
       (Returned (Response (JDict [("error", JStr (diagnostic e))]) 200), tr)) /\
  (forall (text candidate : string) (e : exn),
     generate_content env p = inl text ->
     json_str text [] = (Returned candidate, []) ->
     has_surrogate (first_chars 500 text) = false ->
     has_surrogate (first_chars 500 candidate) = false ->
     interrupts candidate = None ->
     Json.loads candidate = inr e ->
     post env (JDict pairs) =
       (Returned (Response (JDict [("error", JStr (exn_msg e))]) 200), tr)) /\
  (forall e : exn,
     generate_content env p = inr e ->
     names_api_key e = true ->
     has_surrogate (exn_msg e) = false ->
     get_course_recommendations env subject budget skill_level time_availability
         learning_style [] =
       get_fallback_data subject skill_level tr).
Proof.
  intros subject budget skill_level time_availability learning_style p tr
    Hkey Hsubject Hparams.
  assert (Hline : Codec.encode_fault
                    (params_line subject budget skill_level time_availability
                       learning_style) = None).
  { apply encode_fault_none. rewrite params_line_surrogate, Hparams. reflexivity. }
  assert (Hpost : post env (JDict pairs) = _) by apply post_dict_cases.
  cbv zeta in Hpost.
  fold subject budget skill_level time_availability learning_style in Hpost.
  fold p in Hpost. rewrite Hsubject, Hline, Hkey in Hpost. cbn [negb] in Hpost.
  assert (Hraised : forall text e,
            generate_content env p = inl text -> reply_outcome text = Raised e ->
            post env (JDict pairs) =
              (Returned (Response (JDict [("error", JStr (diagnostic e))]) 200), tr)).
  { intros text e Htext Hr. rewrite Hpost, Htext, Hr. reflexivity. }
  repeat apply conj.
  - intros e He Hname Hmsg. rewrite Hpost, He.
    rewrite (proj2 (encode_fault_none _)) by (now rewrite handler_line_surrogate).
    rewrite Hname. reflexivity.
  - intros text e Htext Hr. split; [|now apply Hraised with text].
    exact (proj2 (reply_fault _ _ _ Hr)).
  - intros text cand e Htext Hcand H1 H2 Hint He.
    assert (cand = candidate text) as ->
      by (rewrite json_str_candidate in Hcand; congruence).
    assert (Hr : reply_outcome text = Raised e).
    { rewrite reply_decode by assumption. unfold decode. now rewrite Hint, He. }
    rewrite (Hraised text e Htext Hr). unfold diagnostic.
    now rewrite (proj1 (loads_fault _ _ He)).
  - intros e He Hname Hmsg. rewrite resolver_cases. cbv zeta. fold p.
    rewrite Hkey, He.
    rewrite (proj2 (encode_fault_none p))
      by (unfold p; rewrite prompt_surrogate, Hparams; reflexivity).
    rewrite (proj2 (encode_fault_none _)) by (now rewrite handler_line_surrogate).
    rewrite Hname. reflexivity.
Qed.

(** The reply "not json at all". *)
Lemma unparseable_reply_is_reported :
  let env := Scenario.replying "not json at all" in
  let pairs := [("subject", JStr "Python"); ("skillLevel", JStr "Beginner")] in
  not_set (GOOGLE_API_KEY env) = false /\
  @Py.truthy Scenario.runtime (JStr "Python") = true /\
  @params_encodable Scenario.runtime (JStr "Python") (JStr "") (JStr "Beginner")
    (JStr "") (JStr "") = true /\
  json_str "not json at all" [] = (Returned "not json at all", []) /\
  Json.loads "not json at all"
    = inr (Exn JSONDecodeError "Expecting value: line 1 column 1 (char 0)") /\
  @post Scenario.runtime env (JDict pairs) =
    (Returned
       (Response (JDict [("error", JStr "Expecting value: line 1 column 1 (char 0)")]) 200),
     [Resolver_called (JStr "Python") (JStr "") (JStr "Beginner") (JStr "") (JStr "");
      Model_called
        (@prompt Scenario.runtime (JStr "Python") (JStr "") (JStr "Beginner") (JStr "")
           (JStr ""))]).
Proof.
  cbv zeta. split; [reflexivity|]. split; [reflexivity|]. split; [reflexivity|].
  split; [reflexivity|]. split; [vm_compute; reflexivity|].
  refine (proj1 (proj2 (proj2
    (faults_surface_as_errors Scenario.runtime (Scenario.replying "not json at all")
       [("subject", JStr "Python"); ("skillLevel", JStr "Beginner")]
       eq_refl eq_refl eq_refl)))
    "not json at all" "not json at all"
    (Exn JSONDecodeError "Expecting value: line 1 column 1 (char 0)")
    eq_refl eq_refl eq_refl eq_refl eq_refl _).
  vm_compute. reflexivity.
Defined.

(** C3 as stated fails: a [ValueError] of the provider whose text contains
    "API key" is answered, with a credential configured, with the canned
    payload and no error object. *)
Lemma rejected_key_falls_back :
  let env := Scenario.failing Scenario.rejected_key in
  not_set (GOOGLE_API_KEY env) = false /\
  (forall p, generate_content env p = inr Scenario.rejected_key) /\
  exists payload tr,
    @post Scenario.runtime env Scenario.python_beginner
      = (Returned (Response payload 200), tr) /\
    Py.has_key "error" payload = false /\
    Py.has_key "recommendations" payload = true /\
    In (Fallback_called (JStr "Python") (JStr "Beginner")) tr.
Proof.
  cbv zeta. split; [reflexivity|]. split; [reflexivity|].
  do 2 eexists. split; [vm_compute; reflexivity|].
  split; [reflexivity|]. split; [reflexivity|].
  simpl. auto.
Qed.

(** ** The two keys *)

(** C5 (amended). A response holds both "error" and "recommendations" only
    when its body is, as it stands, the object decoded from the model's
    reply; what the service builds itself (validation, resolver and server
    errors, the canned payload) never holds both. *)
Theorem both_keys_only_from_model (rt : PyRuntime) (env : Env) (data : json)
    (resp : response) (tr : list event) :
  post env data = (Returned resp, tr) ->
  Py.has_key "error" (body resp) = true ->
  Py.has_key "recommendations" (body resp) = true ->
  exists (p text candidate : string),
    In (Model_called p) tr /\
    generate_content env p = inl text /\
    json_str text [] = (Returned candidate, []) /\
    Json.loads candidate = inl (body resp) /\
    status resp = 200.
Proof.
  intros Hpost Herr Hrec.
  destruct (Py.is_dict data) eqn:Hd.
  2: { rewrite (post_other rt env data Hd) in Hpost.
       injection Hpost as <- _. discriminate. }
  destruct data; try discriminate.
  rewrite post_dict_cases in Hpost. cbv zeta in Hpost.
  set (p := prompt _ _ _ _ _) in Hpost.
  destruct (negb _); [injection Hpost as <- _; discriminate|].
  destruct (Codec.encode_fault (params_line _ _ _ _ _));
    [injection Hpost as <- _; discriminate|].
  destruct (not_set (GOOGLE_API_KEY env)); [injection Hpost as <- _; discriminate|].
  destruct (generate_content env p) as [text|e] eqn:Hgen.
  - destruct (reply_outcome text) as [v|e] eqn:Hr;
      [|injection Hpost as <- _; discriminate].
    destruct (Codec.encode_fault ("API response: " ++ Py.str v));
      [injection Hpost as <- _; discriminate|].
    injection Hpost as <- <-.
    exists p, text, (candidate text). repeat split.
    + simpl. auto.
    + exact Hgen.
    + apply json_str_candidate.
    + exact (proj2 (reply_returned _ _ _ Hr)).
  - destruct (Codec.encode_fault (handler_line e));
      [injection Hpost as <- _; discriminate|].
    destruct (names_api_key e); [|injection Hpost as <- _; discriminate].
    destruct (canned _ _) as [payload|] eqn:Hc;
      [|injection Hpost as <- _; discriminate].
    injection Hpost as <- _. cbn [body] in Herr.
    destruct (canned_keys _ _ _ _ Hc) as [He _]. congruence.
Qed.

(** The reply [{"error": "x", "recommendations": []}]. *)
Lemma both_keys_only_from_model_run :
  let env := Scenario.replying Scenario.both_keys in
  let resp := Response (JDict [("error", JStr "x"); ("recommendations", JList [])]) 200 in
  let tr :=
    [Resolver_called (JStr "Python") (JStr "") (JStr "Beginner") (JStr "") (JStr "");
     Model_called
       (@prompt Scenario.runtime (JStr "Python") (JStr "") (JStr "Beginner") (JStr "")
          (JStr ""))] in
  @post Scenario.runtime env Scenario.python_beginner = (Returned resp, tr) /\
  Py.has_key "error" (body resp) = true /\
  Py.has_key "recommendations" (body resp) = true /\
  exists (p text candidate : string),
    In (Model_called p) tr /\
    generate_content env p = inl text /\
    json_str text [] = (Returned candidate, []) /\
    Json.loads candidate = inl (body resp) /\
    status resp = 200.
Proof.
  cbv zeta.
  assert (Hrun : @post Scenario.runtime (Scenario.replying Scenario.both_keys)
                   Scenario.python_beginner
                 = (Returned (Response (JDict [("error", JStr "x");
                                               ("recommendations", JList [])]) 200),
                    [Resolver_called (JStr "Python") (JStr "") (JStr "Beginner") (JStr "")
                       (JStr "");
                     Model_called
                       (@prompt Scenario.runtime (JStr "Python") (JStr "")
                          (JStr "Beginner") (JStr "") (JStr ""))]))
    by (vm_compute; reflexivity).
  split; [exact Hrun|]. split; [reflexivity|]. split; [reflexivity|].
  exact (both_keys_only_from_model Scenario.runtime
           (Scenario.replying Scenario.both_keys) Scenario.python_beginner _ _
           Hrun eq_refl eq_refl).
Defined.

(** C5 as stated fails: with a credential configured, the reply
    [{"error": "x", "recommendations": []}] is returned as it is, with both
    keys. *)
Lemma model_reply_with_both_keys :
  exists resp tr,
    @post Scenario.runtime (Scenario.replying Scenario.both_keys) Scenario.python_beginner
      = (Returned resp, tr) /\
    Py.has_key "error" (body resp) = true /\
    Py.has_key "recommendations" (body resp) = true.
Proof.
  do 2 eexists. split; [vm_compute; reflexivity|]. split; reflexivity.
Qed.

(** ** Status codes *)


(** The line of the five values is printed exactly when they are
    encodable. *)
Lemma params_line_printed (rt : PyRuntime)
    (subject budget skill_level time_availability learning_style : json) :
  Codec.encode_fault
    (params_line subject budget skill_level time_availability learning_style) = None <->
  params_encodable subject budget skill_level time_availability learning_style = true.
Proof.
  rewrite encode_fault_none, params_line_surrogate. apply negb_false_iff.
Qed.

(** The line of the [except] clauses is printed exactly when the text of
    the exception is encodable. *)
Lemma handler_line_printed (e : exn) :
  Codec.encode_fault (handler_line e) = None <-> has_surrogate (exn_msg e) = false.
Proof. rewrite encode_fault_none, handler_line_surrogate. reflexivity. Qed.

(** X1. The handler lets no exception out: every request is answered, with
    status 200, 400 or 500, and with 400 or 500 the body is an object with
    the single key "error". *)
Theorem post_always_answers (rt : PyRuntime) (env : Env) (data : json) :
  exists resp tr,
    post env data = (Returned resp, tr) /\
    (status resp = 200 \/
     (status resp = 400 \/ status resp = 500) /\
     exists message, body resp = JDict [("error", JStr message)]).
Proof.
  destruct (Py.is_dict data) eqn:Hd.
  2: { rewrite (post_other rt env data Hd). do 2 eexists. split; [reflexivity|].
       right. split; [now right|]. eexists. reflexivity. }
  destruct data; try discriminate.
  rewrite post_dict_cases. cbv zeta.
  split_cases; do 2 eexists; (split; [reflexivity|]); cbn [status body server_error];
    first [ now left | right; split; [now (left + right)|]; eexists; reflexivity ].
Qed.

(** X2. The answer is 400 exactly when the body is an object whose
    "subject" is missing or falsy: the empty string, but also [null],
    [false], [0], an empty list or an empty object. *)
Theorem status_400_iff (rt : PyRuntime) (env : Env) (data : json) :
  status_of (post env data) = Some 400 <->
  exists pairs,
    data = JDict pairs /\ Py.truthy (Py.get "subject" (JStr "") pairs) = false.
Proof.
  destruct (Py.is_dict data) eqn:Hd.
  2: { rewrite (post_other rt env data Hd).
       split; [discriminate | intros (pairs & -> & _); discriminate]. }
  destruct data; try discriminate.
  rewrite post_dict_cases. cbv zeta.
  destruct (Py.truthy (Py.get "subject" (JStr "") pairs)) eqn:Hs; cbn [negb].
  - split.
    + split_cases; discriminate.
    + intros (pairs' & [= <-] & H). congruence.
  - split; [|reflexivity]. intros _. exists pairs. auto.
Qed.

(** The body [{"subject": 0}]. *)
Lemma status_400_iff_zero :
  status_of (@post Scenario.runtime (Scenario.replying "{}") (JDict [("subject", JInt 0)]))
    = Some 400.
Proof.
  apply (proj2 (status_400_iff Scenario.runtime (Scenario.replying "{}")
                  (JDict [("subject", JInt 0)]))).
  exists [("subject", JInt 0)]. split; reflexivity.
Defined.



(** The subject holds the lone surrogate U+D800: the answer is 500 before
    the resolver is called. *)
Example surrogate_subject_is_server_error :
  @post Scenario.runtime (Scenario.replying "{}")
    (JDict [("subject", JStr (String "237" (String "160" (String "128" ""))))])
  = (Returned
       (Response
          (JDict [("error",
                   JStr ("Server error: 'utf-8' codec can't encode character '\ud800' "
                         ++ "in position 32: surrogates not allowed"))])
          500),
     []).
Proof. vm_compute. reflexivity. Qed.

(** ** Calls *)

(** X4. One request makes at most one call to the model, with the prompt
    built from the five fields of the body (a missing field counts as the
    empty string), and the fallback is entered only after that call: the
    trace is empty, or the resolver alone, or the resolver and the model, or
    the resolver, the model and the fallback. *)
Theorem trace_shapes (rt : PyRuntime) (env : Env) (pairs : list (string * json)) :
  let subject := Py.get "subject" (JStr "") pairs in
  let budget := Py.get "budget" (JStr "") pairs in
  let skill_level := Py.get "skillLevel" (JStr "") pairs in
  let time_availability := Py.get "timeAvailability" (JStr "") pairs in
  let learning_style := Py.get "learningStyle" (JStr "") pairs in
  let p := prompt subject budget skill_level time_availability learning_style in
  let called :=
    Resolver_called subject budget skill_level time_availability learning_style in
  let tr := trace_of (post env (JDict pairs)) in
  tr = [] \/
  tr = [called] \/
  tr = [called; Model_called p] \/
  tr = [called; Model_called p; Fallback_called subject skill_level].
Proof.
  cbv zeta. rewrite post_dict_cases. cbv zeta.
  split_cases; cbn [trace_of snd]; auto.
Qed.

(** X5. Without a credential (unset, or set to the empty string) the
    provider has no part in the answer: two environments without a
    credential answer every request alike, trace included. *)
Theorem no_credential_ignores_provider (rt : PyRuntime) (env env' : Env) (data : json) :
  not_set (GOOGLE_API_KEY env) = true ->
  not_set (GOOGLE_API_KEY env') = true ->
  post env data = post env' data.
Proof.
  intros H H'. destruct (Py.is_dict data) eqn:Hd.
  2: { now rewrite !post_other by exact Hd. }
  destruct data; try discriminate.
  rewrite !post_dict_cases. cbv zeta. rewrite H, H'. reflexivity.
Qed.

(** An unset credential and an empty one, with providers that differ. *)
Lemma no_credential_ignores_provider_run :
  not_set (GOOGLE_API_KEY Scenario.no_credential) = true /\
  not_set (GOOGLE_API_KEY
             {| GOOGLE_API_KEY := Some "";
                generate_content := fun _ => inr Scenario.rejected_key |}) = true /\
  @post Scenario.runtime Scenario.no_credential Scenario.python_beginner =
  @post Scenario.runtime
    {| GOOGLE_API_KEY := Some "";
       generate_content := fun _ => inr Scenario.rejected_key |}
    Scenario.python_beginner.
Proof.
  split; [reflexivity|]. split; [reflexivity|].
  apply (no_credential_ignores_provider Scenario.runtime Scenario.no_credential
           {| GOOGLE_API_KEY := Some "";
              generate_content := fun _ => inr Scenario.rejected_key |}
           Scenario.python_beginner); reflexivity.
Defined.

(** X6. With a credential, a truthy subject and five values that can be
    printed, a reply whose printed slices hold no lone surrogate and whose
    extracted text decodes to a value that can be printed is answered with
    that value as it is, with status 200 and without any check of its shape:
    a list, a number or [null] goes to the caller like an object does. *)
Theorem decoded_reply_is_returned (rt : PyRuntime) (env : Env)
    (pairs : list (string * json)) (text : string) (v : json) :
  let subject := Py.get "subject" (JStr "") pairs in
  let budget := Py.get "budget" (JStr "") pairs in
  let skill_level := Py.get "skillLevel" (JStr "") pairs in
  let time_availability := Py.get "timeAvailability" (JStr "") pairs in
  let learning_style := Py.get "learningStyle" (JStr "") pairs in
  let p := prompt subject budget skill_level time_availability learning_style in
  Py.truthy subject = true ->
  not_set (GOOGLE_API_KEY env) = false ->
  params_encodable subject budget skill_level time_availability learning_style = true ->
  generate_content env p = inl text ->
  has_surrogate (first_chars 500 text) = false ->
  has_surrogate (first_chars 500 (candidate text)) = false ->
  decode (candidate text) = inl v ->
  has_surrogate (Py.str v) = false ->
  post env (JDict pairs) =
    (Returned (Response v 200),
     [Resolver_called subject budget skill_level time_availability learning_style;
      Model_called p]).
Proof.
  cbv zeta. intros Hs Hkey Hparams Hgen H1 H2 Hv Hstr.
  rewrite post_dict_cases. cbv zeta. rewrite Hs, Hkey, Hgen. cbn [negb].
  rewrite (proj2 (params_line_printed _ _ _ _ _ _) Hparams).
  rewrite (reply_decode _ _ H1 H2), Hv.
  rewrite (proj2 (encode_fault_none _))
    by (now rewrite has_surrogate_app_ascii by reflexivity).
  reflexivity.
Qed.

(** The reply [[1, 2]] inside a fence. *)
Lemma decoded_reply_is_returned_list :
  let text := "```json" ++ nl ++ "[1, 2]" ++ nl ++ "```" in
  let env := Scenario.replying text in
  @Py.truthy Scenario.runtime (JStr "Python") = true /\
  not_set (GOOGLE_API_KEY env) = false /\
  @params_encodable Scenario.runtime (JStr "Python") (JStr "") (JStr "Beginner")
    (JStr "") (JStr "") = true /\
  has_surrogate (first_chars 500 text) = false /\
  has_surrogate (first_chars 500 (candidate text)) = false /\
  @decode Scenario.runtime (candidate text) = inl (JList [JInt 1; JInt 2]) /\
  has_surrogate (@Py.str Scenario.runtime (JList [JInt 1; JInt 2])) = false /\
  body_of (@post Scenario.runtime env Scenario.python_beginner)
    = Some (JList [JInt 1; JInt 2]) /\
  status_of (@post Scenario.runtime env Scenario.python_beginner) = Some 200.
Proof.
  cbv zeta.
  assert (Hv : @decode Scenario.runtime
                 (candidate ("```json" ++ nl ++ "[1, 2]" ++ nl ++ "```"))
               = inl (JList [JInt 1; JInt 2])) by (vm_compute; reflexivity).
  split; [reflexivity|]. split; [reflexivity|]. split; [reflexivity|].
  split; [reflexivity|]. split; [reflexivity|]. split; [exact Hv|].
  split; [reflexivity|].
  unfold Scenario.python_beginner.
  rewrite (decoded_reply_is_returned Scenario.runtime
             (Scenario.replying ("```json" ++ nl ++ "[1, 2]" ++ nl ++ "```"))
             [("subject", JStr "Python"); ("skillLevel", JStr "Beginner")]
             ("```json" ++ nl ++ "[1, 2]" ++ nl ++ "```") (JList [JInt 1; JInt 2])
             eq_refl eq_refl eq_refl eq_refl eq_refl eq_refl Hv eq_refl).
  split; reflexivity.
Defined.



(** X8. When the five values can be printed, the provider raises a
    [ValueError] naming an API key whose text can be printed, and
    "skillLevel" is not a string, the fallback fails on [lower] and the
    caller gets status 500 with the text of that [AttributeError]. *)
Theorem fallback_without_lower_is_server_error (rt : PyRuntime) (env : Env)
    (pairs : list (string * json)) (e : exn) :
  let subject := Py.get "subject" (JStr "") pairs in
  let budget := Py.get "budget" (JStr "") pairs in
  let skill_level := Py.get "skillLevel" (JStr "") pairs in
  let time_availability := Py.get "timeAvailability" (JStr "") pairs in
  let learning_style := Py.get "learningStyle" (JStr "") pairs in
  let p := prompt subject budget skill_level time_availability learning_style in
  Py.truthy subject = true ->
  params_encodable subject budget skill_level time_availability learning_style = true ->
  not_set (GOOGLE_API_KEY env) = false ->
  generate_content env p = inr e ->
  names_api_key e = true ->
  has_surrogate (exn_msg e) = false ->
  Format.is_str skill_level = false ->
  post env (JDict pairs) =
    (Returned
       (Response
          (JDict [("error",
                   JStr ("Server error: '" ++ Py.type_name skill_level
                           ++ "' object has no attribute 'lower'"))])
          500),
     [Resolver_called subject budget skill_level time_availability learning_style;
      Model_called p;
      Fallback_called subject skill_level]).
Proof.
  cbv zeta. intros Hs Hparams Hkey Hgen Hname Hmsg Hstr.
  rewrite post_dict_cases. cbv zeta. rewrite Hs, Hkey, Hgen. cbn [negb].
  rewrite (proj2 (params_line_printed _ _ _ _ _ _) Hparams).
  rewrite (proj2 (handler_line_printed _) Hmsg), Hname.
  destruct (get_fallback_data_other rt (Py.get "subject" (JStr "") pairs) _ [] Hstr)
    as [-> _].
  reflexivity.
Qed.

(** "skillLevel" is the list [["Beginner"]]. *)
Lemma fallback_without_lower_is_server_error_list :
  let env := Scenario.failing Scenario.rejected_key in
  let data := [("subject", JStr "Python"); ("skillLevel", JList [JStr "Beginner"])] in
  @params_encodable Scenario.runtime (JStr "Python") (JStr "") (JList [JStr "Beginner"])
    (JStr "") (JStr "") = true /\
  not_set (GOOGLE_API_KEY env) = false /\
  names_api_key Scenario.rejected_key = true /\
  has_surrogate (exn_msg Scenario.rejected_key) = false /\
  Format.is_str (Py.get "skillLevel" (JStr "") data) = false /\
  body_of (@post Scenario.runtime env (JDict data)) =
    Some (JDict [("error",
                  JStr "Server error: 'list' object has no attribute 'lower'")]) /\
  status_of (@post Scenario.runtime env (JDict data)) = Some 500.
Proof.
  cbv zeta. split; [reflexivity|]. split; [reflexivity|]. split; [reflexivity|].
  split; [reflexivity|]. split; [reflexivity|].
  rewrite (fallback_without_lower_is_server_error Scenario.runtime
             (Scenario.failing Scenario.rejected_key)
             [("subject", JStr "Python"); ("skillLevel", JList [JStr "Beginner"])]
             Scenario.rejected_key eq_refl eq_refl eq_refl eq_refl eq_refl eq_refl
             eq_refl).
  split; reflexivity.
Defined.

(** ** The resolver on its own *)

(** X9. The resolver returns an object whenever the skill level is a
    string and the exception of the provider, if any, has a text that can
    be printed. An exception leaves it only from its own [except] clauses,
    after a call to the model that failed: either the print of the
    exception's text could not be encoded, or that text was printed, named
    an API key, and [lower] was missing on the skill level. *)
Theorem resolver_escapes (rt : PyRuntime) (env : Env)
    (subject budget skill_level time_availability learning_style : json)
    (tr : list event) :
  let p := prompt subject budget skill_level time_availability learning_style in
  let run := get_course_recommendations env subject budget skill_level
               time_availability learning_style tr in
  (Format.is_str skill_level = true ->
   (forall x, generate_content env p = inr x -> has_surrogate (exn_msg x) = false) ->
   exists r tr', run = (Returned r, tr')) /\
  (forall e tr', run = (Raised e, tr') ->
     not_set (GOOGLE_API_KEY env) = false /\
     exists x,
       generate_content env p = inr x /\
       (Codec.encode_fault (handler_line x) = Some e \/
        has_surrogate (exn_msg x) = false /\
        names_api_key x = true /\
        e = no_attribute skill_level "lower" /\
        Format.is_str skill_level = false)).
Proof.
  cbv zeta. rewrite resolver_cases. cbv zeta.
  set (p := prompt _ _ _ _ _).
  destruct (not_set (GOOGLE_API_KEY env)); [split; [eauto | discriminate]|].
  destruct (Codec.encode_fault p); [split; [eauto | discriminate]|].
  destruct (generate_content env p) as [text|x] eqn:Hgen.
  { destruct (reply_outcome text); split; eauto; discriminate. }
  destruct (Codec.encode_fault (handler_line x)) as [y|] eqn:Hy.
  { split.
    - intros _ H. specialize (H x eq_refl). apply handler_line_printed in H. congruence.
    - intros e tr' [= <- _]. split; [reflexivity|]. exists x. auto. }
  apply handler_line_printed in Hy.
  destruct (names_api_key x) eqn:Hname; [|split; [eauto | discriminate]].
  destruct (Format.is_str skill_level) eqn:Hstr.
  - destruct skill_level; try discriminate.
    destruct (get_fallback_data_str rt subject s
                ((tr ++ [Resolver_called subject budget (JStr s) time_availability
                           learning_style]) ++ [Model_called p])%list)
      as (payload & _ & _ & ->).
    split; [eauto | discriminate].
  - destruct (get_fallback_data_other rt subject skill_level
                ((tr ++ [Resolver_called subject budget skill_level time_availability
                           learning_style]) ++ [Model_called p])%list Hstr) as [_ ->].
    split; [discriminate|]. intros e tr' [= <- _].
    split; [reflexivity|]. exists x. split; [reflexivity|]. right. auto.
Qed.

(** The provider rejects the key and the skill level is the number 3. *)
Lemma resolver_escapes_run :
  @get_course_recommendations Scenario.runtime (Scenario.failing Scenario.rejected_key)
    (JStr "Python") (JStr "") (JInt 3) (JStr "") (JStr "") []
  = (Raised (no_attribute (JInt 3) "lower"),
     [Resolver_called (JStr "Python") (JStr "") (JInt 3) (JStr "") (JStr "");
      Model_called
        (@prompt Scenario.runtime (JStr "Python") (JStr "") (JInt 3) (JStr "") (JStr ""));
      Fallback_called (JStr "Python") (JInt 3)]) /\
  not_set (GOOGLE_API_KEY (Scenario.failing Scenario.rejected_key)) = false /\
  exists x,
    generate_content (Scenario.failing Scenario.rejected_key)
      (@prompt Scenario.runtime (JStr "Python") (JStr "") (JInt 3) (JStr "") (JStr ""))
      = inr x /\
    (Codec.encode_fault (handler_line x) = Some (no_attribute (JInt 3) "lower") \/
     has_surrogate (exn_msg x) = false /\
     names_api_key x = true /\
     no_attribute (JInt 3) "lower" = no_attribute (JInt 3) "lower" /\
     Format.is_str (JInt 3) = false).
Proof.
  assert (Hrun : @get_course_recommendations Scenario.runtime
                   (Scenario.failing Scenario.rejected_key)
                   (JStr "Python") (JStr "") (JInt 3) (JStr "") (JStr "") []
                 = (Raised (no_attribute (JInt 3) "lower"),
                    [Resolver_called (JStr "Python") (JStr "") (JInt 3) (JStr "") (JStr "");
                     Model_called
                       (@prompt Scenario.runtime (JStr "Python") (JStr "") (JInt 3)
                          (JStr "") (JStr ""));
                     Fallback_called (JStr "Python") (JInt 3)]))
    by (vm_compute; reflexivity).
  split; [exact Hrun|].
  exact (proj2 (resolver_escapes Scenario.runtime
                  (Scenario.failing Scenario.rejected_key)
                  (JStr "Python") (JStr "") (JInt 3) (JStr "") (JStr "") [])
           _ _ Hrun).
Defined.

(** The provider fails with a text that holds the lone surrogate U+D800:
    the [UnicodeEncodeError] of the print in the [except] clause leaves the
    resolver. *)
Example resolver_escapes_on_print :
  @get_course_recommendations Scenario.runtime
    (Scenario.failing
       (Exn OtherException ("bad " ++ String "237" (String "160" (String "128" "")))))
    (JStr "Python") (JStr "") (JStr "Beginner") (JStr "") (JStr "") []
  = (Raised
       (Exn UnicodeEncodeError
          ("'utf-8' codec can't encode character '\ud800' in position 41: "
           ++ "surrogates not allowed")),
     [Resolver_called (JStr "Python") (JStr "") (JStr "Beginner") (JStr "") (JStr "");
      Model_called
        (@prompt Scenario.runtime (JStr "Python") (JStr "") (JStr "Beginner") (JStr "")
           (JStr ""))]).
Proof. vm_compute. reflexivity. Qed.

(** ** The canned payload and the prompt *)

(** X10. For every subject and every string as skill level the canned
    payload has the format the prompt asks the model for: the three keys
    of the result, courses with the seven keys and stages with the five
    keys of the example, holding texts and lists of texts; it has no
    "error" key; and each of those keys stands, quoted, in every prompt. *)
Theorem fallback_conforms (rt : PyRuntime) (subject : json) (k : string)
    (tr : list event) :
  (exists payload tr',
     get_fallback_data subject (JStr k) tr = (Returned payload, tr') /\
     Format.conforms payload = true /\
     Py.has_key "error" payload = false) /\
  (forall (key : string) (s b l t y : json),
     In key (Format.result_keys ++ Format.course_keys ++ Format.stage_keys)%list ->
     str_in (quoted key) (prompt s b l t y) = true).
Proof.
  split.
  - do 2 eexists. split; [reflexivity|]. split; reflexivity.
  - intros key s b l t y Hin. cbn in Hin. unfold prompt.
    repeat (destruct Hin as [<-|Hin]; [find_piece|]). destruct Hin.
Qed.

(** ** The call to the model *)


